(** * Globegenius frontend: session lifecycle

    A shallow embedding of the authentication code of the React frontend:

    - [frontend/src/services/api.js]: the axios instance [api] with its
      request and response interceptors, and the wrappers [authAPI] and
      [userAPI];
    - [frontend/src/services/adminApi.js]: [AdminApiService.makeRequest],
      which calls [fetch] directly;
    - [frontend/src/contexts/AuthContext.js]: [checkAuth], [login],
      [signup], [logout], [updateUser];
    - the profile page: [handleSave].

    JavaScript values received from the server are modelled by [JValue];
    the browser ([localStorage], [window.location.href], the toasts) and the
    React state of [AuthProvider] are fields of one [World], which also
    records every effect in order in its [trace].  An [async] function is a
    function from worlds to a world and a completion (resolved or rejected).
    The backend is a state-passing function [serve] that every theorem
    quantifies over.  [console.log] and [console.error] are left out. *)

From Stdlib Require Import ZArith.
From stdpp Require Import gmap strings list pretty.

Local Open Scope string_scope.
Local Open Scope Z_scope.
Local Open Scope list_scope.

(** ** JavaScript values *)

Module Js.

(** The numbers of the model: the safe integers of JavaScript, of magnitude
    below 2^53.  On these the string conversion is the decimal notation and
    arithmetic on doubles is exact; fractions and larger numbers are not in
    the model. *)
Record SafeInt : Type := mkSafeInt {
  int_val : Z;
  int_safe : (Z.abs int_val <? 2 ^ 53) = true
}.

(** JSON data as axios hands it to the code, plus [undefined].  Numbers are
    safe integers.  [JObj] lists the own properties in enumeration order. *)
#[warnings="-register-all"]
Inductive JValue : Type :=
| JUndefined
| JNull
| JBool (b : bool)
| JNum (n : SafeInt)
| JStr (s : string)
| JArr (items : list JValue)
| JObj (props : list (string * JValue)).

(** Truthiness, as tested by [if (v)], [!v] and [v || w]. *)
Definition truthy (v : JValue) : bool :=
  match v with
  | JUndefined | JNull => false
  | JBool b => b
  | JNum n => negb (int_val n =? 0)
  | JStr s => negb (String.eqb s "")
  | JArr _ | JObj _ => true
  end.

(** [a || b] *)
Definition js_or (a b : JValue) : JValue := if truthy a then a else b.

Definition nullish (v : JValue) : bool :=
  match v with
  | JUndefined | JNull => true
  | _ => false
  end.

Fixpoint assoc (k : string) (props : list (string * JValue)) : JValue :=
  match props with
  | [] => JUndefined
  | (k', v) :: rest => if String.eqb k k' then v else assoc k rest
  end.

(** [v?.k] for a property name [k] that no prototype defines. *)
Definition opt_prop (v : JValue) (k : string) : JValue :=
  match v with
  | JObj props => assoc k props
  | _ => JUndefined
  end.

(** [v.k]: [None] stands for the TypeError thrown on [null] and
    [undefined]. *)
Definition prop (v : JValue) (k : string) : option JValue :=
  if nullish v then None else Some (opt_prop v k).

(** [Object.values(v)] *)
Definition object_values (v : JValue) : list JValue :=
  match v with
  | JObj props => map snd props
  | JArr items => items
  | JStr s => map (fun c => JStr (String c "")) (String.list_ascii_of_string s)
  | _ => []
  end.

(** [a === s] for a string literal [s]. *)
Definition strict_eq_str (a : JValue) (s : string) : bool :=
  match a with
  | JStr s' => String.eqb s' s
  | _ => false
  end.

(** The string conversion applied by template literals and by
    [localStorage.setItem]. *)
Fixpoint js_to_string (v : JValue) : string :=
  match v with
  | JUndefined => "undefined"
  | JNull => "null"
  | JBool true => "true"
  | JBool false => "false"
  | JNum n => pretty (int_val n)
  | JStr s => s
  | JArr items =>
      (fix join (l : list JValue) : string :=
         match l with
         | [] => ""
         | x :: rest =>
             let sx := if nullish x then "" else js_to_string x in
             match rest with
             | [] => sx
             | _ :: _ => sx +:+ "," +:+ join rest
             end
         end) items
  | JObj _ => "[object Object]"
  end.

End Js.
Export Js.

(** ** Requests, errors and the world *)

Module Browser.

Inductive Method : Type := GET | POST | PUT.

Inductive Body : Type :=
| NoBody
| FormBody (fields : list (string * string))   (* URLSearchParams *)
| JsonBody (v : JValue).                       (* object or JSON.stringify *)

Record Request : Type := mkRequest {
  method : Method;
  url : string;
  headers : gmap string string;
  body : Body
}.

Record Response : Type := mkResponse {
  status : Z;
  data : JValue
}.

(** What a [catch] block can receive.  An [AxiosError] always carries
    [error.request]; [error.response] is present when the server
    answered. *)
Inductive JsError : Type :=
| AxiosError (config : Request) (response : option Response)
| TypeError
| SyntaxError
| PlainError (message : string).                (* new Error(message) *)

(** [error.response] and [error.request] as truthiness tests see them. *)
Definition err_response (e : JsError) : option Response :=
  match e with
  | AxiosError _ r => r
  | _ => None
  end.

Definition err_has_request (e : JsError) : bool :=
  match e with
  | AxiosError _ _ => true
  | _ => false
  end.

Inductive Event : Type :=
| EvRequest (r : Request)            (* a request leaves the browser *)
| EvSetItem (k v : string)           (* localStorage.setItem *)
| EvRemoveItem (k : string)          (* localStorage.removeItem *)
| EvNavigate (target : string)       (* window.location.href = target *)
| EvToastSuccess (m : JValue)
| EvToastError (m : JValue)
| EvSetUser (u : JValue).            (* setUser of AuthProvider *)

Record World (Srv : Type) : Type := mkWorld {
  storage : gmap string string;      (* localStorage *)
  href : string;                     (* window.location.href *)
  user : JValue;                     (* useState(null) of AuthProvider *)
  loading : bool;                    (* useState(true) of AuthProvider *)
  trace : list Event;                (* effects so far, oldest first *)
  server : Srv
}.
Arguments mkWorld {Srv}.
Arguments storage {Srv}.
Arguments href {Srv}.
Arguments user {Srv}.
Arguments loading {Srv}.
Arguments trace {Srv}.
Arguments server {Srv}.

Inductive Completion (A : Type) : Type :=
| Resolved (a : A)
| Rejected (e : JsError).
Arguments Resolved {A}.
Arguments Rejected {A}.

(** An [async] function body. *)
Definition Async (Srv A : Type) : Type := World Srv → World Srv * Completion A.

Section Effects.
Context {Srv : Type}.

Definition ret {A} (a : A) : Async Srv A := fun w => (w, Resolved a).

Definition throw {A} (e : JsError) : Async Srv A := fun w => (w, Rejected e).

(** [await m] followed by the rest of the body. *)
Definition bind {A B} (m : Async Srv A) (k : A → Async Srv B) : Async Srv B :=
  fun w =>
    match m w with
    | (w', Resolved a) => k a w'
    | (w', Rejected e) => (w', Rejected e)
    end.

(** [try { m } catch (error) { h error }] *)
Definition try_catch {A} (m : Async Srv A) (h : JsError → Async Srv A) : Async Srv A :=
  fun w =>
    match m w with
    | (w', Resolved a) => (w', Resolved a)
    | (w', Rejected e) => h e w'
    end.

Definition emit (e : Event) (w : World Srv) : World Srv :=
  mkWorld (storage w) (href w) (user w) (loading w) (trace w ++ [e]) (server w).

Definition getItem (k : string) : Async Srv JValue :=
  fun w =>
    (w, Resolved (match storage w !! k with
                  | Some s => JStr s
                  | None => JNull
                  end)).

Definition setItem (k v : string) : Async Srv unit :=
  fun w =>
    let w' := mkWorld (<[k := v]> (storage w)) (href w) (user w) (loading w)
                      (trace w) (server w) in
    (emit (EvSetItem k v) w', Resolved tt).

Definition removeItem (k : string) : Async Srv unit :=
  fun w =>
    let w' := mkWorld (delete k (storage w)) (href w) (user w) (loading w)
                      (trace w) (server w) in
    (emit (EvRemoveItem k) w', Resolved tt).

(** [window.location.href = target] *)
Definition navigate (target : string) : Async Srv unit :=
  fun w =>
    let w' := mkWorld (storage w) target (user w) (loading w)
                      (trace w) (server w) in
    (emit (EvNavigate target) w', Resolved tt).

Definition toast_success (m : JValue) : Async Srv unit :=
  fun w => (emit (EvToastSuccess m) w, Resolved tt).

Definition toast_error (m : JValue) : Async Srv unit :=
  fun w => (emit (EvToastError m) w, Resolved tt).

Definition setUser (u : JValue) : Async Srv unit :=
  fun w =>
    let w' := mkWorld (storage w) (href w) u (loading w)
                      (trace w) (server w) in
    (emit (EvSetUser u) w', Resolved tt).

Definition setLoading (b : bool) : Async Srv unit :=
  fun w =>
    (mkWorld (storage w) (href w) (user w) b (trace w) (server w), Resolved tt).

(** The request leaves the browser and the backend answers it, or does
    not ([None]: no response received). *)
Definition transmit (serve : Srv → Request → Srv * option Response)
           (r : Request) : Async Srv (option Response) :=
  fun w =>
    let '(s', ans) := serve (server w) r in
    let w' := mkWorld (storage w) (href w) (user w) (loading w)
                      (trace w) s' in
    (emit (EvRequest r) w', Resolved ans).

End Effects.

End Browser.
Export Browser.

Notation "'let!' x ':=' m 'in' k" := (bind m (fun x => k))
  (at level 10, x name, m at level 100, k at level 200).
Notation "'do!' m 'in' k" := (bind m (fun _ => k))
  (at level 10, m at level 100, k at level 200).

(** ** services/api.js *)

(** The file holds two revisions of the module.  The interceptors are the
    same in both; the wrappers below are those of the later revision, which
    the pages import (paths are relative to [API_URL/api/v1]). *)

Module Api.

Section Instance.
Context {Srv : Type}.
Variable serve : Srv → Request → Srv * option Response.

(** [api.interceptors.request.use((config) => ...)] *)
Definition request_interceptor (config : Request) : Async Srv Request :=
  let! token := getItem "access_token" in
  if truthy token then
    ret (mkRequest (method config) (url config)
           (<["Authorization" := "Bearer " +:+ js_to_string token]> (headers config))
           (body config))
  else ret config.

(** The second handler of [api.interceptors.response.use]. *)
Definition response_rejected {A} (error : JsError) : Async Srv A :=
  do! match err_response error with
      | Some r =>
          if status r =? 401 then
            do! removeItem "access_token" in
            navigate "/login"
          else if 500 <=? status r then
            toast_error (JStr "Erreur serveur. Veuillez réessayer plus tard.")
          else ret tt
      | None => toast_error (JStr "Problème de connexion au serveur.")
      end in
  throw error.

(** axios's default [validateStatus]. *)
Definition validate_status (s : Z) : bool := (200 <=? s) && (s <? 300).

(** One call on the instance [api]: request interceptor, transport,
    then the response interceptor, whose first handler is the
    identity. *)
Definition api_request (config : Request) : Async Srv Response :=
  let! config' := request_interceptor config in
  let! answer := transmit serve config' in
  match answer with
  | Some r =>
      if validate_status (status r) then ret r
      else response_rejected (AxiosError config' (Some r))
  | None => response_rejected (AxiosError config' None)
  end.

Definition api_get (path : string) : Async Srv Response :=
  api_request (mkRequest GET path ∅ NoBody).

Definition api_post (path : string) (payload : Body)
           (hdrs : gmap string string) : Async Srv Response :=
  api_request (mkRequest POST path hdrs payload).

Definition api_put (path : string) (payload : Body)
           (hdrs : gmap string string) : Async Srv Response :=
  api_request (mkRequest PUT path hdrs payload).

(** The argument of [authAPI.signup] and of [signup]. *)
Record UserData : Type := mkUserData {
  email : string;
  password : string;
  firstName : JValue;
  lastName : JValue
}.

Definition authAPI_login (email password : string) : Async Srv Response :=
  try_catch
    (api_post "/auth/login"
       (FormBody [("username", email); ("password", password)])
       {["Content-Type" := "application/x-www-form-urlencoded"]})
    (fun error => throw error).

Definition authAPI_signup (userData : UserData) : Async Srv Response :=
  try_catch
    (api_post "/users/signup"
       (JsonBody (JObj [("email", JStr (email userData));
                        ("password", JStr (password userData));
                        ("first_name", js_or (firstName userData) JNull);
                        ("last_name", js_or (lastName userData) JNull)]))
       (<["Content-Type" := "application/json"]>
          {["Accept" := "application/json"]}))
    (fun error => throw error).

Definition userAPI_me : Async Srv Response := api_get "/users/me".

Definition userAPI_updateProfile (data : JValue) : Async Srv Response :=
  api_put "/users/me" (JsonBody data) {["Content-Type" := "application/json"]}.

End Instance.

End Api.

(** ** services/adminApi.js *)

Module AdminApi.

(** The [options] argument of [makeRequest]; [None] is an absent key. *)
Record Options : Type := mkOptions {
  opt_method : option Method;
  opt_headers : option (gmap string string);
  opt_body : Body
}.

Definition no_options : Options := mkOptions None None NoBody.

Section Service.
Context {Srv : Type}.
Variable serve : Srv → Request → Srv * option Response.

(** [{ headers: { 'Content-Type': ..., 'Authorization': ...,
    ...options.headers }, ...options }]: an [options.headers] replaces
    the merged headers. *)
Definition request_config (token : JValue) (endpoint : string)
           (options : Options) : Request :=
  mkRequest
    (default GET (opt_method options))
    ("/admin" +:+ endpoint)
    (match opt_headers options with
     | Some h => h
     | None =>
         <["Content-Type" := "application/json"]>
           {["Authorization" := "Bearer " +:+ js_to_string token]}
     end)
    (opt_body options).

(** [fetch]: rejects only when no response is received. *)
Definition fetch (r : Request) : Async Srv Response :=
  let! answer := transmit serve r in
  match answer with
  | Some resp => ret resp
  | None => throw TypeError
  end.

(** [response.json()] *)
Definition response_json (resp : Response) : Async Srv JValue :=
  match data resp with
  | JUndefined => throw SyntaxError
  | v => ret v
  end.

Definition response_ok (resp : Response) : bool :=
  (200 <=? status resp) && (status resp <=? 299).

Definition makeRequest (endpoint : string) (options : Options) : Async Srv JValue :=
  let! token := getItem "access_token" in
  let config := request_config token endpoint options in
  try_catch
    (let! response := fetch config in
     if negb (response_ok response) then
       let! error := response_json response in
       match prop error "detail" with
       | Some detail =>
           throw (PlainError
                    (js_to_string
                       (js_or detail (JStr ("HTTP " +:+ pretty (status response))))))
       | None => throw TypeError
       end
     else response_json response)
    (fun error => throw error).

End Service.

End AdminApi.

(** ** contexts/AuthContext.js *)

Module AuthContext.
Import Api.

(** The object returned by [login] and [signup]:
    [{ success: true, user }] or [{ success: false, error, statusCode }].
    [statusCode] is [None] when the key is absent or [undefined]. *)
Inductive AuthOutcome : Type :=
| AuthSuccess (user : JValue)
| AuthFailure (error : JValue) (statusCode : option Z).

Definition success (o : AuthOutcome) : bool :=
  match o with
  | AuthSuccess _ => true
  | AuthFailure _ _ => false
  end.

(** The message chosen in the [catch] block of [login]. *)
Definition login_message (error : JsError) : JValue :=
  match err_response error with
  | Some r =>
      if status r =? 400 then
        js_or (opt_prop (data r) "detail") (JStr "Email ou mot de passe incorrect")
      else if status r =? 401 then JStr "Authentification échouée"
      else if 500 <=? status r then
        JStr "Erreur serveur, veuillez réessayer plus tard"
      else JStr "Erreur de connexion"
  | None =>
      if err_has_request error then JStr "Impossible de contacter le serveur"
      else JStr "Erreur de connexion"
  end.

(** The message chosen in the [catch] block of [signup]; [None] when
    [firstError[0].msg] throws a TypeError. *)
Definition signup_message (error : JsError) : option JValue :=
  match err_response error with
  | Some r =>
      let statusCode := status r in
      if statusCode =? 400 then
        if strict_eq_str (opt_prop (data r) "detail")
                         "A user with this email already exists"
        then Some (JStr "Un utilisateur avec cet email existe déjà")
        else Some (js_or (opt_prop (data r) "detail") (JStr "Données invalides"))
      else if statusCode =? 422 then
        let message := JStr "Format de données incorrect" in
        let firstError :=
          hd JUndefined
             (object_values (js_or (opt_prop (data r) "detail") (JObj []))) in
        match firstError with
        | JArr (first :: _) =>
            match prop first "msg" with
            | Some msg => Some (js_or msg message)
            | None => None
            end
        | _ => Some message
        end
      else if statusCode =? 0 then Some (JStr "Problème de connexion au serveur")
      else Some (JStr "Erreur lors de l'inscription")
  | None => Some (JStr "Erreur lors de l'inscription")
  end.

Section Provider.
Context {Srv : Type}.
Variable serve : Srv → Request → Srv * option Response.

Definition checkAuth : Async Srv unit :=
  let! token := getItem "access_token" in
  do! (if truthy token then
         try_catch
           (let! response := userAPI_me serve in
            setUser (data response))
           (fun error => removeItem "access_token")
       else ret tt) in
  setLoading false.

Definition login (email password : string) : Async Srv AuthOutcome :=
  try_catch
    (let! response := authAPI_login serve email password in
     match prop (data response) "access_token" with
     | None => throw TypeError
     | Some access_token =>
         do! setItem "access_token" (js_to_string access_token) in
         let! userResponse := userAPI_me serve in
         do! setUser (data userResponse) in
         do! toast_success (JStr "Connexion réussie !") in
         ret (AuthSuccess (data userResponse))
     end)
    (fun error =>
       let message := login_message error in
       do! toast_error message in
       ret (AuthFailure message None)).

Definition signup (userData : UserData) : Async Srv AuthOutcome :=
  try_catch
    (let! response := authAPI_signup serve userData in
     let newUser := data response in
     let! loginResult := login (email userData) (password userData) in
     if success loginResult then
       do! toast_success (JStr "Compte créé avec succès !") in
       ret (AuthSuccess newUser)
     else ret loginResult)
    (fun error =>
       let statusCode := status <$> err_response error in
       match signup_message error with
       | None => throw TypeError
       | Some message =>
           do! toast_error message in
           ret (AuthFailure message statusCode)
       end).

Definition logout : Async Srv unit :=
  do! removeItem "access_token" in
  do! setUser JNull in
  toast_success (JStr "Déconnexion réussie").

Definition updateUser (updatedUser : JValue) : Async Srv unit :=
  setUser updatedUser.

End Provider.

End AuthContext.

(** ** pages/Profile.js *)

Module Profile.
Import Api AuthContext.

(** The component's own [useState] cells touched by [handleSave]. *)
Record Local : Type := mkLocal {
  isEditing : bool;
  saving : bool                        (* [loading] of the component *)
}.

Section Page.
Context {Srv : Type}.
Variable serve : Srv → Request → Srv * option Response.

Definition handleSave (formData : JValue) (l : Local) : Async Srv Local :=
  let l1 := mkLocal (isEditing l) true in
  let! l2 :=
    try_catch
      (let! response := userAPI_updateProfile serve formData in
       do! updateUser (data response) in
       do! toast_success (JStr "Profil mis à jour avec succès !") in
       ret (mkLocal false (saving l1)))
      (fun error =>
         do! toast_error (JStr "Erreur lors de la mise à jour du profil") in
         ret l1) in
  ret (mkLocal (isEditing l2) false).

End Page.

End Profile.

(** ** Observations on worlds and traces *)

Module Observe.
Import Api AuthContext.

(** The Credential Store: the [access_token] entry of [localStorage]. *)
Definition token {Srv} (w : World Srv) : option string :=
  storage w !! "access_token".

(** The session is Anonymous: no token and no cached identity. *)
Definition anonymous {Srv} (w : World Srv) : Prop :=
  token w = None ∧ user w = JNull.

(** The request that leaves the browser when [config] is passed to the
    instance [api] in world [w]: the request interceptor's result. *)
Definition sent {Srv} (w : World Srv) (config : Request) : Request :=
  match request_interceptor config w with
  | (_, Resolved config') => config'
  | (_, Rejected _) => config
  end.

(** The world once [config'] has left the browser and the backend has
    moved on. *)
Definition after_transmit {Srv} (serve : Srv → Request → Srv * option Response)
           (w : World Srv) (config' : Request) : World Srv :=
  emit (EvRequest config')
    (mkWorld (storage w) (href w) (user w) (loading w) (trace w)
       (serve (server w) config').1).

(** The backend's answer to [config'] in world [w]. *)
Definition answer_to {Srv} (serve : Srv → Request → Srv * option Response)
           (w : World Srv) (config' : Request) : option Response :=
  (serve (server w) config').2.

Definition authorization (r : Request) : option string :=
  headers r !! "Authorization".

Definition is_request (e : Event) : bool :=
  match e with EvRequest _ => true | _ => false end.

Definition is_clear (e : Event) : bool :=
  match e with EvRemoveItem k => String.eqb k "access_token" | _ => false end.

Definition is_token_write (e : Event) : bool :=
  match e with EvSetItem k _ => String.eqb k "access_token" | _ => false end.

Definition is_redirect (e : Event) : bool :=
  match e with EvNavigate t => String.eqb t "/login" | _ => false end.

Fixpoint count (p : Event → bool) (l : list Event) : nat :=
  match l with
  | [] => 0%nat
  | e :: rest => ((if p e then 1 else 0) + count p rest)%nat
  end.

(** The response interceptor's error handler run once per failed call, in
    the order in which the event loop delivers the failures. *)
Fixpoint deliver {Srv} (errors : list JsError) (w : World Srv) : World Srv :=
  match errors with
  | [] => w
  | e :: rest => deliver rest (response_rejected (A := Response) e w).1
  end.

(** The world after the response interceptor's error handler has run on
    [e]. *)
Definition reaction {Srv} (e : JsError) (w : World Srv) : World Srv :=
  (response_rejected (A := Response) e w).1.

(** The call resolves: a response arrived and axios accepts its status. *)
Definition resolves (answer : option Response) : bool :=
  match answer with
  | Some r => validate_status (status r)
  | None => false
  end.

(** The error axios builds for an answer it does not accept. *)
Definition axios_error (config' : Request) (answer : option Response) : JsError :=
  AxiosError config' answer.

(** The configuration [authAPI.login] passes to [api.post]. *)
Definition login_config (email password : string) : Request :=
  mkRequest POST "/auth/login"
    {["Content-Type" := "application/x-www-form-urlencoded"]}
    (FormBody [("username", email); ("password", password)]).

(** The configuration [userAPI.me] passes to [api.get]. *)
Definition me_config : Request := mkRequest GET "/users/me" ∅ NoBody.

(** The configuration [authAPI.signup] passes to [api.post]. *)
Definition signup_config (userData : UserData) : Request :=
  mkRequest POST "/users/signup"
    (<["Content-Type" := "application/json"]> {["Accept" := "application/json"]})
    (JsonBody (JObj [("email", JStr (email userData));
                     ("password", JStr (password userData));
                     ("first_name", js_or (firstName userData) JNull);
                     ("last_name", js_or (lastName userData) JNull)])).

(** The configuration [userAPI.updateProfile] passes to [api.put]. *)
Definition update_config (formData : JValue) : Request :=
  mkRequest PUT "/users/me" {["Content-Type" := "application/json"]}
    (JsonBody formData).

Definition is_set_user (e : Event) : bool :=
  match e with EvSetUser _ => true | _ => false end.

(** The failure message an outcome carries, if it is a failure. *)
Definition surfaced (c : Completion AuthOutcome) : option JValue :=
  match c with
  | Resolved (AuthFailure m _) => Some m
  | _ => None
  end.

Definition is_unauthorized (e : JsError) : bool :=
  match err_response e with
  | Some r => status r =? 401
  | None => false
  end.

(** The world after [localStorage.setItem('access_token', t)]. *)
Definition persisted {Srv} (t : string) (w : World Srv) : World Srv :=
  (setItem "access_token" t w).1.

(** The requests recorded in a trace, oldest first. *)
Fixpoint requests (l : list Event) : list Request :=
  match l with
  | [] => []
  | EvRequest r :: rest => r :: requests rest
  | _ :: rest => requests rest
  end.

Definition unauthorized (cfg : Request) (payload : JValue) : JsError :=
  AxiosError cfg (Some (mkResponse 401 payload)).

End Observe.

(** ** Concrete backends and worlds *)

Module Scenario.
Import Api AdminApi AuthContext Observe.

(** A backend that answers the calls in order from a script and does not
    answer once the script is exhausted. *)
Definition scripted (s : list (option Response)) (r : Request)
  : list (option Response) * option Response :=
  match s with
  | [] => ([], None)
  | a :: rest => (rest, a)
  end.

(** The world when the page has just loaded. *)
Definition boot {Srv} (st : gmap string string) (s : Srv) : World Srv :=
  mkWorld st "/" JNull true [] s.

Definition stored (t : string) : gmap string string := {["access_token" := t]}.

Definition ok (d : JValue) : option Response := Some (mkResponse 200 d).

Definition failed (code : Z) (d : JValue) : option Response :=
  Some (mkResponse code d).

Definition detail (s : string) : JValue := JObj [("detail", JStr s)].

Definition admin_identity : JValue :=
  JObj [("email", JStr "admin@example.com"); ("is_admin", JBool true)].

Definition account_id : JValue := JNum (mkSafeInt 7 eq_refl).

Definition alice : UserData :=
  mkUserData "alice@example.com" "s3cret" (JStr "Alice") JNull.

Definition token_body : JValue := JObj [("access_token", JStr "abc")].

Definition duplicate_email : string := "A user with this email already exists".

(** A 422 body whose [detail] maps fields to error lists. *)
Definition validation_body : JValue :=
  JObj [("detail",
         JObj [("email", JArr [JObj [("msg", JStr "value is not a valid email address");
                                     ("type", JStr "value_error.email")]]);
               ("password", JArr [JObj [("msg", JStr "field required")]])])].

(** Anonymous visitor; the backend accepts the credentials and then
    returns the identity. *)
Definition w_login_ok : World (list (option Response)) :=
  boot ∅ [ok token_body; ok admin_identity].

(** Anonymous visitor; the backend refuses the credentials. *)
Definition w_login_refused : World (list (option Response)) :=
  boot ∅ [failed 400 (detail "Incorrect email or password")].

(** Anonymous visitor; the backend creates the account, accepts the
    credentials and returns the identity. *)
Definition w_signup_ok : World (list (option Response)) :=
  boot ∅ [ok (JObj [("email", JStr "alice@example.com"); ("id", account_id)]);
          ok token_body; ok admin_identity].

Definition w_signup_duplicate : World (list (option Response)) :=
  boot ∅ [failed 400 (detail duplicate_email)].

Definition w_signup_invalid : World (list (option Response)) :=
  boot ∅ [failed 422 validation_body].

(** A returning visitor with a stored token while the backend is down. *)
Definition w_outage : World (list (option Response)) :=
  boot (stored "abc") [failed 503 JNull].

(** A signed-in session whose next call is answered 401. *)
Definition w_expired : World (list (option Response)) :=
  mkWorld (stored "abc") "/admin" admin_identity false []
    [failed 401 (detail "Not authenticated")].

(** No token stored; the backend answers the admin call. *)
Definition w_admin_anonymous : World (list (option Response)) :=
  boot ∅ [ok (JObj [])].

(** Two calls of a signed-in session that were both answered 401. *)
Definition two_failures : list JsError :=
  [unauthorized (mkRequest GET "/users/me" ∅ NoBody) (detail "Not authenticated");
   unauthorized (mkRequest GET "/flights/deals" ∅ NoBody) (detail "Not authenticated")].

End Scenario.

(** ** services/api.js: the other exports *)

Module ApiRest.
Import Api.

(** What [checkBackendHealth] returns: [response.data], or the object
    [{ status: 'error', error }]. *)
Inductive Health : Type :=
| HealthData (d : JValue)
| HealthError (error : JsError).

Section Instance.
Context {Srv : Type}.
Variable serve : Srv → Request → Srv * option Response.

Definition checkBackendHealth : Async Srv Health :=
  try_catch
    (let! response := api_get serve "/health/" in
     ret (HealthData (data response)))
    (fun error => ret (HealthError error)).

Definition authAPI_forgotPassword (data : JValue) : Async Srv Response :=
  api_post serve "/auth/forgot-password" (JsonBody data)
    {["Content-Type" := "application/json"]}.

Definition authAPI_resetPassword (data : JValue) : Async Srv Response :=
  api_post serve "/auth/reset-password" (JsonBody data)
    {["Content-Type" := "application/json"]}.

End Instance.

End ApiRest.

(** ** services/adminApi.js: the Google OAuth calls *)

Module AdminGoogle.
Import AdminApi.

Section Service.
Context {Srv : Type}.
Variable serve : Srv → Request → Srv * option Response.

(** [fetch(url)] with no options, then [response.json()] with no test of
    [response.ok]. *)
Definition getGoogleAuthUrl : Async Srv JValue :=
  let! response := fetch serve (mkRequest GET "/auth/google/url" ∅ NoBody) in
  response_json response.

Definition handleGoogleCallback (code : JValue) : Async Srv JValue :=
  let! response :=
    fetch serve
      (mkRequest POST "/auth/google/callback"
         {["Content-Type" := "application/json"]}
         (JsonBody (JObj [("code", code)]))) in
  if negb (response_ok response) then
    let! error := response_json response in
    match prop error "detail" with
    | Some detail =>
        throw (PlainError
                 (js_to_string (js_or detail (JStr "Google authentication failed"))))
    | None => throw TypeError
    end
  else response_json response.

End Service.

End AdminGoogle.

(** ** pages/Landing.js: the health effect *)

Module LandingPage.
Import ApiRest.

Section Page.
Context {Srv : Type}.
Variable serve : Srv → Request → Srv * option Response.

(** [checkBackendHealth().then(... setApiStatus('healthy'))
    .catch(... setApiStatus('error'))]; the result is the new
    [apiStatus]. *)
Definition healthEffect : Async Srv string :=
  try_catch
    (let! data := checkBackendHealth serve in
     ret "healthy")
    (fun error => ret "error").

End Page.

End LandingPage.

(** ** pages/Login.js *)

Module LoginPage.
Import AuthContext.

(** The [useState] cells of the page and the last [navigate] target. *)
Record State : Type := mkState {
  loading : bool;
  loginError : JValue;
  navigated : option string
}.

Section Page.
Context {Srv : Type}.
Variable serve : Srv → Request → Srv * option Response.
(** [String.prototype.trim] *)
Variable trim : string → string.

Definition onSubmit (email password : string) (st : State) : Async Srv State :=
  let st1 := mkState true (JStr "") (navigated st) in
  let trimmedEmail := trim email in
  let trimmedPassword := trim password in
  let! st2 :=
    try_catch
      (let! result := login serve trimmedEmail trimmedPassword in
       match result with
       | AuthSuccess user =>
           match prop user "is_admin" with
           | None => throw TypeError
           | Some is_admin =>
               if truthy is_admin then
                 ret (mkState (loading st1) (loginError st1) (Some "/admin"))
               else if truthy (opt_prop user "onboarding_completed") then
                 ret (mkState (loading st1) (loginError st1) (Some "/dashboard"))
               else
                 ret (mkState (loading st1) (loginError st1) (Some "/onboarding"))
           end
       | AuthFailure error _ =>
           ret (mkState (loading st1) (js_or error (JStr "Échec de connexion"))
                  (navigated st1))
       end)
      (fun error =>
         ret (mkState (loading st1) (JStr "Erreur de connexion au serveur")
                (navigated st1))) in
  ret (mkState false (loginError st2) (navigated st2)).

End Page.

End LoginPage.

(** ** pages/Signup.js *)

Module SignupPage.
Import Api AuthContext.

Record State : Type := mkState {
  loading : bool;
  signupError : JValue;
  navigated : option string
}.

Section Page.
Context {Srv : Type}.
Variable serve : Srv → Request → Srv * option Response.

(** [data] is the submitted form; only the four fields below are read. *)
Definition onSubmit (data : UserData) (st : State) : Async Srv State :=
  let st1 := mkState true (JStr "") (navigated st) in
  let signupData :=
    mkUserData (email data) (password data)
      (js_or (firstName data) JNull) (js_or (lastName data) JNull) in
  let! st2 :=
    try_catch
      (let! result := signup serve signupData in
       if success result then
         ret (mkState (loading st1) (signupError st1) (Some "/onboarding"))
       else
         ret (mkState (loading st1)
                (js_or (match result with
                        | AuthFailure error _ => error
                        | AuthSuccess _ => JUndefined
                        end)
                       (JStr "Une erreur est survenue lors de l'inscription."))
                (navigated st1)))
      (fun error =>
         ret (mkState (loading st1)
                (JStr "Problème de connexion au serveur. Veuillez réessayer.")
                (navigated st1))) in
  ret (mkState false (signupError st2) (navigated st2)).

End Page.

End SignupPage.

(** ** pages/ResetPassword.js *)

Module ResetPasswordPage.
Import ApiRest.

(** [s.length]: the number of UTF-16 code units of a string held as
    well-formed UTF-8.  A continuation byte adds nothing, the lead byte of a
    four-byte sequence adds two. *)
Definition utf16_units (c : Ascii.ascii) : nat :=
  let n := Ascii.nat_of_ascii c in
  if (n <? 128)%nat then 1%nat
  else if (n <? 192)%nat then 0%nat
  else if (n <? 240)%nat then 1%nat
  else 2%nat.

Fixpoint js_length (s : string) : nat :=
  match s with
  | EmptyString => 0%nat
  | String c rest => (utf16_units c + js_length rest)%nat
  end.

Record Strength : Type := mkStrength {
  strength : string;
  color : string
}.

Definition getPasswordStrength (password : string) : Strength :=
  if (js_length password <? 8)%nat then mkStrength "weak" "red"
  else if (js_length password <? 12)%nat then mkStrength "medium" "yellow"
  else mkStrength "strong" "green".

Record State : Type := mkState {
  loading : bool;
  success : bool
}.

Section Page.
Context {Srv : Type}.
Variable serve : Srv → Request → Srv * option Response.

(** [token] is [searchParams.get('token')]: a string or [null]. *)
Definition handleSubmit (token : JValue) (password confirmPassword : string)
           (st : State) : Async Srv State :=
  if negb (String.eqb password confirmPassword) then
    do! toast_error (JStr "Les mots de passe ne correspondent pas") in
    ret st
  else if (js_length password <? 8)%nat then
    do! toast_error (JStr "Le mot de passe doit contenir au moins 8 caractères") in
    ret st
  else
    let st1 := mkState true (success st) in
    let! st2 :=
      try_catch
        (let! response :=
           authAPI_resetPassword serve
             (JObj [("token", token); ("new_password", JStr password)]) in
         do! toast_success (JStr "Mot de passe réinitialisé avec succès !") in
         ret (mkState (loading st1) true))
        (fun error =>
           do! toast_error
                 (js_or (match err_response error with
                         | Some r => opt_prop (data r) "detail"
                         | None => JUndefined
                         end)
                        (JStr "Erreur lors de la réinitialisation")) in
           ret st1) in
    ret (mkState false (success st2)).

End Page.

End ResetPasswordPage.

(** ** pages/ForgotPassword.js *)

Module ForgotPasswordPage.
Import ApiRest.

Record State : Type := mkState {
  loading : bool;
  sent : bool
}.

Section Page.
Context {Srv : Type}.
Variable serve : Srv → Request → Srv * option Response.

Definition handleSubmit (email : string) (st : State) : Async Srv State :=
  if negb (truthy (JStr email)) then
    do! toast_error (JStr "Veuillez entrer votre adresse email") in
    ret st
  else
    let st1 := mkState true (sent st) in
    let! st2 :=
      try_catch
        (let! response :=
           authAPI_forgotPassword serve (JObj [("email", JStr email)]) in
         do! toast_success (JStr "Email de réinitialisation envoyé !") in
         ret (mkState (loading st1) true))
        (fun error =>
           do! toast_error (JStr "Erreur lors de l'envoi de l'email") in
           ret st1) in
    ret (mkState false (sent st2)).

End Page.

End ForgotPasswordPage.

(** ** pages/Profile.js: the form *)

Module ProfileForm.
Import Profile.

(** [a ?? b] *)
Definition js_coalesce (a b : JValue) : JValue := if nullish a then b else a.

(** The object literal built from the cached user by the effect and by
    [handleCancel]; [user?.k] and, for a truthy [user], [user.k] are both
    [opt_prop user k]. *)
Definition form_of_user (user : JValue) : list (string * JValue) :=
  [("first_name", js_or (opt_prop user "first_name") (JStr ""));
   ("last_name", js_or (opt_prop user "last_name") (JStr ""));
   ("phone", js_or (opt_prop user "phone") (JStr ""));
   ("email_notifications",
    js_coalesce (opt_prop user "email_notifications") (JBool true));
   ("sms_notifications",
    js_coalesce (opt_prop user "sms_notifications") (JBool false));
   ("notification_frequency",
    js_or (opt_prop user "notification_frequency") (JStr "instant"))].

(** [formData] with the component's other cells. *)
Record Editor : Type := mkEditor {
  formData : list (string * JValue);
  cells : Local
}.

(** [useEffect(() => { if (user) setFormData({...}) }, [user])] *)
Definition syncForm (user : JValue) (ed : Editor) : Editor :=
  if truthy user then mkEditor (form_of_user user) (cells ed) else ed.

Definition handleCancel (user : JValue) (ed : Editor) : Editor :=
  mkEditor (form_of_user user) (mkLocal false (saving (cells ed))).

End ProfileForm.

(** ** More observations and worlds *)

Module Observe2.
Import Api ApiRest Observe.

Definition is_toast_error (e : Event) : bool :=
  match e with EvToastError _ => true | _ => false end.

Definition is_toast_success (e : Event) : bool :=
  match e with EvToastSuccess _ => true | _ => false end.

(** The events a run added to the trace of [w]. *)
Definition added {Srv} (w w' : World Srv) : list Event :=
  drop (length (trace w)) (trace w').

Definition health_config : Request := mkRequest GET "/health/" ∅ NoBody.

Definition reset_config (token : JValue) (password : string) : Request :=
  mkRequest POST "/auth/reset-password" {["Content-Type" := "application/json"]}
    (JsonBody (JObj [("token", token); ("new_password", JStr password)])).

Definition forgot_config (email : string) : Request :=
  mkRequest POST "/auth/forgot-password" {["Content-Type" := "application/json"]}
    (JsonBody (JObj [("email", JStr email)])).

Definition google_url_config : Request :=
  mkRequest GET "/auth/google/url" ∅ NoBody.

(** A run from [w] to [w'] leaves the cached identity alone: the cell is
    the same and no [setUser] was called. *)
Definition leaves_identity {Srv} (w w' : World Srv) : Prop :=
  user w' = user w ∧ count is_set_user (added w w') = 0%nat.

(** The world with [loading] set to [false]. *)
Definition settled {Srv} (w : World Srv) : World Srv :=
  (setLoading false w).1.

End Observe2.

(** ** More concrete worlds *)

Module Scenario2.
Import Api AdminApi AuthContext Observe Scenario.

(** The credentials are accepted, then the identity endpoint is down. *)
Definition w_login_half : World (list (option Response)) :=
  boot ∅ [ok token_body; failed 503 JNull].

(** The credential call is answered 200 with an empty object. *)
Definition w_login_no_token : World (list (option Response)) :=
  boot ∅ [ok (JObj []); failed 401 (detail "Not authenticated")].

(** The credential call is answered 200 with [null]. *)
Definition w_login_null_body : World (list (option Response)) :=
  boot ∅ [ok JNull].

(** The identity endpoint answers 200 with [null]. *)
Definition w_login_null_identity : World (list (option Response)) :=
  boot ∅ [ok token_body; ok JNull].

(** A returning visitor with a valid token. *)
Definition w_returning : World (list (option Response)) :=
  boot (stored "abc") [ok admin_identity].

Definition created_profile : JValue :=
  JObj [("email", JStr "alice@example.com"); ("id", account_id)].

(** A 422 body whose first error list starts with [null]. *)
Definition w_signup_null_entry : World (list (option Response)) :=
  boot ∅ [failed 422 (JObj [("detail", JObj [("email", JArr [JNull])])])].

(** The backend cannot be reached. *)
Definition w_offline : World (list (option Response)) :=
  boot ∅ [None].

Definition no_trim (s : string) : string := s.

Definition idle_login : LoginPage.State := LoginPage.mkState false (JStr "") None.

Definition profile_patch : JValue := JObj [("first_name", JStr "Ada")].

End Scenario2.

Import Api AdminApi AuthContext Profile Observe Scenario.
Import ApiRest AdminGoogle ProfileForm Observe2 Scenario2.

(** * Theorems *)

(** ** The request pipeline *)

Section PipelineFacts.
Context {Srv : Type}.
Variable serve : Srv → Request → Srv * option Response.

Lemma request_interceptor_run (config : Request) (w : World Srv) :
  request_interceptor config w = (w, Resolved (sent w config)).
Proof.
  unfold sent, request_interceptor, bind, getItem, ret.
  destruct (storage w !! "access_token") as [t|]; simpl; [|done].
  by destruct (String.eqb t "").
Qed.

Lemma api_request_run (config : Request) (w : World Srv) :
  api_request serve config w =
    let config' := sent w config in
    let w1 := after_transmit serve w config' in
    match answer_to serve w config' with
    | Some r =>
        if validate_status (status r) then (w1, Resolved r)
        else response_rejected (AxiosError config' (Some r)) w1
    | None => response_rejected (AxiosError config' None) w1
    end.
Proof.
  unfold api_request, bind at 1. rewrite request_interceptor_run.
  unfold bind, transmit, after_transmit, answer_to; simpl.
  destruct (serve (server w) (sent w config)) as [s' [r|]]; simpl; [|done].
  by destruct (validate_status (status r)).
Qed.

(** C1.  Every call on the instance [api] whose response has a status
    outside 2xx, or that receives no response, is rejected with the axios
    error that carries that very response.  On 401 the token is removed
    and the location set to the login view; on a status of 500 or more the
    generic server-error toast is shown and neither the storage nor the
    location changes; with no response the distinct connection toast is
    shown and neither changes.  The cached identity is never touched. *)
Theorem response_interceptor_reaction (config : Request) (w : World Srv) :
  let config' := sent w config in
  let w' := (api_request serve config w).1 in
  let outcome := (api_request serve config w).2 in
  user w' = user w ∧ loading w' = loading w ∧
  match answer_to serve w config' with
  | Some r =>
      if validate_status (status r) then
        outcome = Resolved r ∧
        storage w' = storage w ∧ href w' = href w ∧
        trace w' = trace w ++ [EvRequest config']
      else
        outcome = Rejected (AxiosError config' (Some r)) ∧
        if status r =? 401 then
          token w' = None ∧ href w' = "/login" ∧
          trace w' = trace w ++ [EvRequest config';
                                 EvRemoveItem "access_token";
                                 EvNavigate "/login"]
        else if 500 <=? status r then
          storage w' = storage w ∧ href w' = href w ∧
          trace w' = trace w ++
            [EvRequest config';
             EvToastError (JStr "Erreur serveur. Veuillez réessayer plus tard.")]
        else
          storage w' = storage w ∧ href w' = href w ∧
          trace w' = trace w ++ [EvRequest config']
  | None =>
      outcome = Rejected (AxiosError config' None) ∧
      storage w' = storage w ∧ href w' = href w ∧
      trace w' = trace w ++
        [EvRequest config'; EvToastError (JStr "Problème de connexion au serveur.")]
  end.
Proof.
  rewrite api_request_run. cbv zeta.
  destruct (answer_to serve w (sent w config)) as [r|]; cycle 1.
  { unfold response_rejected, bind, toast_error, throw; simpl.
    by rewrite <- app_assoc. }
  destruct (validate_status (status r)); [done|].
  unfold response_rejected, bind; simpl.
  destruct (status r =? 401); simpl.
  { unfold token; simpl. rewrite lookup_delete_eq, <- !app_assoc. done. }
  destruct (500 <=? status r); simpl; [|done].
  by rewrite <- app_assoc.
Qed.

End PipelineFacts.

(** ** The session controller *)

Section ControllerFacts.
Context {Srv : Type}.
Variable serve : Srv → Request → Srv * option Response.

Lemma response_rejected_run {A} (e : JsError) (w : World Srv) :
  response_rejected (A := A) e w = (reaction e w, Rejected e).
Proof.
  unfold reaction, response_rejected, bind.
  destruct (err_response e) as [r|]; simpl; [|done].
  destruct (status r =? 401); simpl; [done|].
  by destruct (500 <=? status r).
Qed.

(** A failed call: the answer is turned into an axios error and handed to
    the response interceptor. *)
Lemma api_request_failed (config : Request) (w : World Srv) :
  resolves (answer_to serve w (sent w config)) = false →
  api_request serve config w =
    let config' := sent w config in
    let e := axios_error config' (answer_to serve w config') in
    (reaction e (after_transmit serve w config'), Rejected e).
Proof.
  intros H. rewrite api_request_run. cbv zeta. unfold axios_error.
  destruct (answer_to serve w (sent w config)) as [r|]; simpl in H.
  - rewrite H. apply response_rejected_run.
  - apply response_rejected_run.
Qed.

Lemma api_request_resolved (config : Request) (w : World Srv) (r : Response) :
  answer_to serve w (sent w config) = Some r →
  validate_status (status r) = true →
  api_request serve config w = (after_transmit serve w (sent w config), Resolved r).
Proof. intros H1 H2. rewrite api_request_run. cbv zeta. by rewrite H1, H2. Qed.

Lemma bind_resolved {A B} (m : Async Srv A) (k : A → Async Srv B)
      (w w' : World Srv) (a : A) :
  m w = (w', Resolved a) → bind m k w = k a w'.
Proof. intros H. unfold bind. by rewrite H. Qed.

Lemma bind_rejected {A B} (m : Async Srv A) (k : A → Async Srv B)
      (w w' : World Srv) (e : JsError) :
  m w = (w', Rejected e) → bind m k w = (w', Rejected e).
Proof. intros H. unfold bind. by rewrite H. Qed.

Lemma try_catch_resolved {A} (m : Async Srv A) (h : JsError → Async Srv A)
      (w w' : World Srv) (a : A) :
  m w = (w', Resolved a) → try_catch m h w = (w', Resolved a).
Proof. intros H. unfold try_catch. by rewrite H. Qed.

Lemma try_catch_rejected {A} (m : Async Srv A) (h : JsError → Async Srv A)
      (w w' : World Srv) (e : JsError) :
  m w = (w', Rejected e) → try_catch m h w = h e w'.
Proof. intros H. unfold try_catch. by rewrite H. Qed.

Lemma rethrow_run {A} (m : Async Srv A) (w : World Srv) :
  try_catch m (fun error => throw error) w = m w.
Proof. unfold try_catch, throw. by destruct (m w) as [w' [a|e]]. Qed.

(** What the interceptor's reaction can and cannot change. *)
Lemma reaction_frame (e : JsError) (w : World Srv) :
  user (reaction e w) = user w ∧ loading (reaction e w) = loading w ∧
  server (reaction e w) = server w ∧
  (token w = None → token (reaction e w) = None) ∧
  ∃ evs, trace (reaction e w) = trace w ++ evs ∧
         count is_request evs = 0%nat ∧ count is_token_write evs = 0%nat.
Proof.
  unfold reaction, response_rejected, bind, token.
  destruct (err_response e) as [r|]; simpl.
  - destruct (status r =? 401); simpl.
    + repeat split; try done.
      * intros _. apply lookup_delete_eq.
      * eexists. rewrite <- app_assoc. by split.
    + destruct (500 <=? status r); simpl; repeat split; try done.
      * by eexists.
      * exists []. by rewrite app_nil_r.
  - repeat split; try done. by eexists.
Qed.

Lemma reaction_client_error (e : JsError) (r : Response) (w : World Srv) :
  err_response e = Some r → status r ≠ 401 → status r < 500 →
  reaction e w = w.
Proof.
  intros He H1 H2. unfold reaction, response_rejected, bind.
  rewrite He.
  destruct (Z.eqb_spec (status r) 401) as [?|_]; [done|].
  destruct (Z.leb_spec 500 (status r)); [lia|]. simpl. by destruct w.
Qed.

(** The [catch] block of [login]. *)
Lemma login_credentials_rejected (email password : string) (w : World Srv) :
  let c1 := sent w (login_config email password) in
  resolves (answer_to serve w c1) = false →
  login serve email password w =
    let e := axios_error c1 (answer_to serve w c1) in
    (emit (EvToastError (login_message e)) (reaction e (after_transmit serve w c1)),
     Resolved (AuthFailure (login_message e) None)).
Proof.
  intros c1 H. unfold login, try_catch, bind at 1.
  unfold authAPI_login. rewrite rethrow_run. unfold api_post.
  fold (login_config email password).
  by rewrite (api_request_failed _ _ H).
Qed.

(** The [try] block of [login] once the credential call has resolved. *)
Lemma login_credentials_accepted (email password : string) (w : World Srv)
      (r1 : Response) (t : JValue) :
  let c1 := sent w (login_config email password) in
  answer_to serve w c1 = Some r1 →
  validate_status (status r1) = true →
  prop (data r1) "access_token" = Some t →
  login serve email password w =
    let w2 := persisted (js_to_string t) (after_transmit serve w c1) in
    let c2 := sent w2 me_config in
    let w3 := after_transmit serve w2 c2 in
    match answer_to serve w2 c2 with
    | Some r2 =>
        if validate_status (status r2) then
          (emit (EvToastSuccess (JStr "Connexion réussie !"))
             (setUser (data r2) w3).1,
           Resolved (AuthSuccess (data r2)))
        else
          let e := axios_error c2 (Some r2) in
          (emit (EvToastError (login_message e)) (reaction e w3),
           Resolved (AuthFailure (login_message e) None))
    | None =>
        let e := axios_error c2 None in
        (emit (EvToastError (login_message e)) (reaction e w3),
         Resolved (AuthFailure (login_message e) None))
    end.
Proof.
  intros c1 H1 H2 H3. cbv zeta.
  set (w2 := persisted (js_to_string t) (after_transmit serve w c1)).
  assert (Hlogin : authAPI_login serve email password w
                   = (after_transmit serve w c1, Resolved r1)).
  { unfold authAPI_login. rewrite rethrow_run. unfold api_post.
    fold (login_config email password).
    apply (api_request_resolved _ _ _ H1 H2). }
  unfold login, try_catch.
  rewrite (bind_resolved _ _ _ _ _ Hlogin), H3.
  rewrite (bind_resolved _ _ _ w2 tt) by reflexivity.
  unfold userAPI_me, api_get. fold me_config.
  destruct (answer_to serve w2 (sent w2 me_config)) as [r2|] eqn:E2.
  - destruct (validate_status (status r2)) eqn:V2.
    + by rewrite (bind_resolved _ _ _ _ _ (api_request_resolved _ _ _ E2 V2)).
    + rewrite (bind_rejected _ _ _ _ _ (api_request_failed me_config w2 ltac:(by rewrite E2))).
      cbv zeta. by rewrite E2.
  - rewrite (bind_rejected _ _ _ _ _ (api_request_failed me_config w2 ltac:(by rewrite E2))).
    cbv zeta. by rewrite E2.
Qed.

(** A 2xx answer whose body is [null] or [undefined]: the destructuring
    throws and the [catch] block reports a failure. *)
Lemma login_credentials_malformed (email password : string) (w : World Srv)
      (r1 : Response) :
  let c1 := sent w (login_config email password) in
  answer_to serve w c1 = Some r1 →
  validate_status (status r1) = true →
  prop (data r1) "access_token" = None →
  login serve email password w =
    (emit (EvToastError (login_message TypeError)) (after_transmit serve w c1),
     Resolved (AuthFailure (login_message TypeError) None)).
Proof.
  intros c1 H1 H2 H3.
  assert (Hlogin : authAPI_login serve email password w
                   = (after_transmit serve w c1, Resolved r1)).
  { unfold authAPI_login. rewrite rethrow_run. unfold api_post.
    fold (login_config email password).
    apply (api_request_resolved _ _ _ H1 H2). }
  unfold login, try_catch.
  by rewrite (bind_resolved _ _ _ _ _ Hlogin), H3.
Qed.

Lemma count_app (p : Event → bool) (l1 l2 : list Event) :
  count p (l1 ++ l2) = (count p l1 + count p l2)%nat.
Proof. induction l1 as [|e l1 IH]; simpl; [done|]. rewrite IH. lia. Qed.

(** C2.  When the server answers the credential call with HTTP 200 and a
    body carrying the access token [tok], [login] performs, in this order:
    the credential call, the write of [tok] to the Credential Store, the
    identity fetch; it issues no other request, and it reports success
    exactly when the identity fetch resolves, with the fetched identity and
    with [tok] still stored.
    When the credential call does not resolve, no further request is
    issued.  A successful outcome always carries the cached user. *)
Theorem login_two_step_sequencing (email password : string) (w : World Srv) :
  let c1 := sent w (login_config email password) in
  let w' := (login serve email password w).1 in
  let outcome := (login serve email password w).2 in
  (∀ (r1 : Response) (tok : string),
     answer_to serve w c1 = Some r1 →
     status r1 = 200 →
     opt_prop (data r1) "access_token" = JStr tok →
     let w2 := persisted tok (after_transmit serve w c1) in
     let c2 := sent w2 me_config in
     ∃ rest,
       trace w' = trace w ++
         [EvRequest c1; EvSetItem "access_token" tok; EvRequest c2] ++ rest ∧
       count is_request rest = 0%nat ∧
       (∀ u, outcome = Resolved (AuthSuccess u) ↔
             ∃ r2, answer_to serve w2 c2 = Some r2 ∧
                   validate_status (status r2) = true ∧ data r2 = u) ∧
       (∀ u, outcome = Resolved (AuthSuccess u) → token w' = Some tok)) ∧
  (resolves (answer_to serve w c1) = false →
     ∃ rest, trace w' = trace w ++ EvRequest c1 :: rest ∧
             count is_request rest = 0%nat) ∧
  (∀ u, outcome = Resolved (AuthSuccess u) → user w' = u).
Proof.
  cbv zeta. split; [|split].
  - intros r1 tok H1 Hs Ht.
    assert (V1 : validate_status (status r1) = true) by (by rewrite Hs).
    assert (Hp : prop (data r1) "access_token" = Some (JStr tok)).
    { unfold prop. destruct (data r1); try discriminate Ht. simpl in *. by rewrite Ht. }
    rewrite (login_credentials_accepted _ _ _ _ _ H1 V1 Hp). cbv zeta.
    change (js_to_string (JStr tok)) with tok.
    set (w2 := persisted tok _). set (c2 := sent w2 me_config).
    assert (Tw3 : trace (after_transmit serve w2 c2) = trace w ++
              [EvRequest (sent w (login_config email password));
               EvSetItem "access_token" tok; EvRequest c2]).
    { simpl. by rewrite <- !app_assoc. }
    destruct (answer_to serve w2 c2) as [r2|] eqn:E2.
    + destruct (validate_status (status r2)) eqn:V2.
      * eexists [_; _]. simpl. rewrite <- !app_assoc. split; [done|]. split; [done|].
        split; [|intros _ _; unfold token; simpl; apply lookup_insert_eq].
        intros u; split.
        -- intros [= <-]. by exists r2.
        -- intros (r2' & [= <-] & _ & <-). done.
      * destruct (reaction_frame (axios_error c2 (Some r2)) (after_transmit serve w2 c2))
          as (_ & _ & _ & _ & evs & Hevs & Hreq & _).
        exists (evs ++ [EvToastError (login_message (axios_error c2 (Some r2)))]).
        cbn [fst snd emit trace]. rewrite Hevs, Tw3, <- !app_assoc.
        split; [done|]. split; [rewrite count_app, Hreq; done|].
        split; [|intros u; simpl; discriminate].
        intros u; split; [simpl; discriminate|].
        intros (r2' & [= <-] & V & _). congruence.
    + destruct (reaction_frame (axios_error c2 None) (after_transmit serve w2 c2))
        as (_ & _ & _ & _ & evs & Hevs & Hreq & _).
      exists (evs ++ [EvToastError (login_message (axios_error c2 None))]).
      cbn [fst snd emit trace]. rewrite Hevs, Tw3, <- !app_assoc.
      split; [done|]. split; [rewrite count_app, Hreq; done|].
      split; [|intros u; simpl; discriminate].
      intros u; split; [simpl; discriminate|].
      intros (r2' & [=] & _).
  - intros H. rewrite (login_credentials_rejected _ _ _ H). cbv zeta.
    set (e := axios_error _ _).
    destruct (reaction_frame e (after_transmit serve w (sent w (login_config email password))))
      as (_ & _ & _ & _ & evs & Hevs & Hreq & _).
    exists (evs ++ [EvToastError (login_message e)]).
    cbn [fst snd emit trace]. rewrite Hevs. simpl. rewrite <- !app_assoc.
    split; [done|]. by rewrite count_app, Hreq.
  - intros u.
    destruct (resolves (answer_to serve w (sent w (login_config email password)))) eqn:R.
    + unfold resolves in R.
      destruct (answer_to serve w (sent w (login_config email password))) as [r1|] eqn:E1;
        [|done].
      destruct (prop (data r1) "access_token") as [t|] eqn:Hp.
      * rewrite (login_credentials_accepted _ _ _ _ _ E1 R Hp). cbv zeta.
        set (w2 := persisted _ _).
        destruct (answer_to serve w2 (sent w2 me_config)) as [r2|];
          [|cbv zeta; cbn [snd]; discriminate].
        destruct (validate_status (status r2)); [|cbv zeta; cbn [snd]; discriminate].
        cbn [fst snd]. by intros [= <-].
      * rewrite (login_credentials_malformed _ _ _ _ E1 R Hp). cbn [snd]. discriminate.
    + rewrite (login_credentials_rejected _ _ _ R). cbv zeta. cbn [snd]. discriminate.
Qed.

(** C3.  When the server answers the credential call with HTTP 400 or
    401, [login] reports a failure, issues no other request, never writes
    a token, leaves the cached identity as it was, and an empty Credential
    Store stays empty: an Anonymous session stays Anonymous.  On 400 with
    a non-empty [detail] string in the body, that string is the message
    of the outcome and of the error toast. *)
Theorem login_invalid_credentials (email password : string) (w : World Srv)
        (r : Response) :
  let c1 := sent w (login_config email password) in
  let w' := (login serve email password w).1 in
  let outcome := (login serve email password w).2 in
  answer_to serve w c1 = Some r →
  status r = 400 ∨ status r = 401 →
  (∃ m, outcome = Resolved (AuthFailure m None)) ∧
  (∃ evs, trace w' = trace w ++ EvRequest c1 :: evs ∧
          count is_request evs = 0%nat ∧ count is_token_write evs = 0%nat) ∧
  user w' = user w ∧
  (token w = None → token w' = None) ∧
  (anonymous w → anonymous w') ∧
  (∀ s, status r = 400 → opt_prop (data r) "detail" = JStr s → s ≠ "" →
        outcome = Resolved (AuthFailure (JStr s) None) ∧
        last (trace w') = Some (EvToastError (JStr s))).
Proof.
  cbv zeta. intros Hans Hst.
  assert (R : resolves (answer_to serve w (sent w (login_config email password))) = false).
  { rewrite Hans. simpl. by destruct Hst as [-> | ->]. }
  rewrite (login_credentials_rejected _ _ _ R). cbv zeta. rewrite Hans.
  set (c1 := sent w (login_config email password)).
  set (e := axios_error c1 (Some r)).
  destruct (reaction_frame e (after_transmit serve w c1))
    as (Hu & _ & _ & Htok & evs & Hevs & Hreq & Hwr).
  cbn [fst snd].
  assert (Huser : user (emit (EvToastError (login_message e))
                          (reaction e (after_transmit serve w c1))) = user w)
    by (simpl; by rewrite Hu).
  assert (Htoken : token w = None →
                   token (emit (EvToastError (login_message e))
                            (reaction e (after_transmit serve w c1))) = None)
    by (intros H; by apply Htok).
  split; [by eexists|]. split.
  { exists (evs ++ [EvToastError (login_message e)]).
    cbn [emit trace]. rewrite Hevs. simpl. rewrite <- !app_assoc.
    split; [done|]. rewrite !count_app, Hreq, Hwr. done. }
  split; [done|]. split; [done|]. split.
  { intros [H1 H2]. split; [by apply Htoken | by rewrite Huser]. }
  intros s H400 Hd Hne.
  assert (Hm : login_message e = JStr s).
  { unfold login_message, e, axios_error. simpl. rewrite H400, Hd. simpl.
    unfold js_or. simpl. destruct (String.eqb_spec s ""); [done|]. done. }
  rewrite Hm. split; [done|]. cbn [emit trace]. apply last_snoc.
Qed.

(** C10.  At startup, when the Credential Store holds a non-empty token
    and the identity fetch does not resolve, whatever the reason (no
    response, 5xx, 401 or any other status outside 2xx), [checkAuth]
    removes the token; the cached identity is left as it was and
    [loading] ends [false]. *)
Theorem checkAuth_failure_discards_token (w : World Srv) (t : string) :
  let w' := (checkAuth serve w).1 in
  token w = Some t → t ≠ "" →
  resolves (answer_to serve w (sent w me_config)) = false →
  (checkAuth serve w).2 = Resolved tt ∧
  token w' = None ∧ user w' = user w ∧ loading w' = false ∧
  last (trace w') = Some (EvRemoveItem "access_token") ∧
  count is_request (drop (length (trace w)) (trace w')) = 1%nat.
Proof.
  cbv zeta. intros Ht Hne R.
  unfold checkAuth.
  assert (Hget : getItem "access_token" w = (w, Resolved (JStr t))).
  { unfold getItem. unfold token in Ht. by rewrite Ht. }
  rewrite (bind_resolved _ _ _ _ _ Hget).
  assert (Htruthy : truthy (JStr t) = true).
  { simpl. by destruct (String.eqb_spec t ""). }
  rewrite Htruthy. unfold userAPI_me, api_get. fold me_config.
  set (e := axios_error (sent w me_config) (answer_to serve w (sent w me_config))).
  set (w1 := reaction e (after_transmit serve w (sent w me_config))).
  assert (Hfetch : bind (api_request serve me_config)
                     (fun response => setUser (data response)) w
                   = (w1, Rejected e))
    by apply (bind_rejected _ _ _ _ _ (api_request_failed me_config w R)).
  rewrite (bind_resolved _ _ _ (removeItem "access_token" w1).1 tt)
    by (by rewrite (try_catch_rejected _ _ _ _ _ Hfetch)).
  destruct (reaction_frame e (after_transmit serve w (sent w me_config)))
    as (Hu & _ & _ & _ & evs & Hevs & Hreq & _).
  fold w1 in Hu, Hevs.
  cbn [fst snd removeItem setLoading emit storage user loading trace].
  split; [done|]. split; [apply lookup_delete_eq|]. split; [done|].
  split; [done|]. split; [apply last_snoc|].
  rewrite Hevs. simpl. rewrite <- !app_assoc, drop_app_length. simpl.
  rewrite count_app, Hreq. done.
Qed.

(** C7.  [logout] issues no request: it removes the token, resets the
    cached identity to [null] and shows the confirmation toast, in every
    world.  In an Anonymous world the storage and the identity are
    unchanged, and a second [logout] changes neither of them again. *)
Theorem logout_local_idempotent (w : World Srv) :
  let w' := (logout w).1 in
  let w'' := (logout w').1 in
  (logout w).2 = Resolved tt ∧
  token w' = None ∧ user w' = JNull ∧
  href w' = href w ∧ server w' = server w ∧
  trace w' = trace w ++ [EvRemoveItem "access_token"; EvSetUser JNull;
                         EvToastSuccess (JStr "Déconnexion réussie")] ∧
  (anonymous w → storage w' = storage w ∧ user w' = user w ∧ anonymous w') ∧
  (storage w'' = storage w' ∧ user w'' = user w' ∧ href w'' = href w').
Proof.
  cbv zeta. unfold logout, bind, anonymous, token. simpl.
  rewrite <- !app_assoc. simpl.
  repeat split; try done; try apply lookup_delete_eq.
  - destruct H as [H _]. by apply delete_id.
  - by destruct H as [_ ->].
  - apply delete_id, lookup_delete_eq.
Qed.

Lemma authAPI_signup_run (userData : UserData) (w : World Srv) :
  authAPI_signup serve userData w = api_request serve (signup_config userData) w.
Proof. unfold authAPI_signup. by rewrite rethrow_run. Qed.

(** The [try] block of [signup] once the account has been created. *)
Lemma signup_created (userData : UserData) (w : World Srv) (r : Response) :
  let c := sent w (signup_config userData) in
  answer_to serve w c = Some r →
  validate_status (status r) = true →
  signup serve userData w =
    let w1 := after_transmit serve w c in
    match login serve (email userData) (password userData) w1 with
    | (w2, Resolved (AuthSuccess u)) =>
        (emit (EvToastSuccess (JStr "Compte créé avec succès !")) w2,
         Resolved (AuthSuccess (data r)))
    | (w2, Resolved (AuthFailure m sc)) => (w2, Resolved (AuthFailure m sc))
    | (w2, Rejected e) =>
        match signup_message e with
        | Some m => (emit (EvToastError m) w2,
                     Resolved (AuthFailure m (status <$> err_response e)))
        | None => (w2, Rejected TypeError)
        end
    end.
Proof.
  intros c H1 H2. unfold signup, try_catch.
  rewrite (bind_resolved _ _ _ (after_transmit serve w c) r)
    by (rewrite authAPI_signup_run; by apply api_request_resolved).
  cbv zeta. unfold bind at 1.
  destruct (login serve (email userData) (password userData) _) as [w2 [[u|m sc]|e]];
    simpl; try done.
  by destruct (signup_message e).
Qed.

(** The [catch] block of [signup] when the account is not created. *)
Lemma signup_refused (userData : UserData) (w : World Srv) :
  let c := sent w (signup_config userData) in
  resolves (answer_to serve w c) = false →
  signup serve userData w =
    let e := axios_error c (answer_to serve w c) in
    let w1 := reaction e (after_transmit serve w c) in
    match signup_message e with
    | Some m => (emit (EvToastError m) w1,
                 Resolved (AuthFailure m (status <$> answer_to serve w c)))
    | None => (w1, Rejected TypeError)
    end.
Proof.
  intros c R. unfold signup, try_catch.
  rewrite (bind_rejected _ _ _ _ _
             (eq_trans (authAPI_signup_run userData w)
                       (api_request_failed (signup_config userData) w R))).
  cbv zeta. fold c. by destruct (signup_message _).
Qed.

(** The credential call is always the first effect of [login]. *)
Lemma login_first_effect (email password : string) (w : World Srv) :
  ∃ rest, trace (login serve email password w).1 =
          trace w ++ EvRequest (sent w (login_config email password)) :: rest.
Proof.
  set (c1 := sent w (login_config email password)).
  assert (T1 : trace (after_transmit serve w c1) = trace w ++ [EvRequest c1]) by done.
  destruct (resolves (answer_to serve w c1)) eqn:R.
  - unfold resolves in R. destruct (answer_to serve w c1) as [r1|] eqn:E1; [|done].
    destruct (prop (data r1) "access_token") as [t|] eqn:Hp.
    + rewrite (login_credentials_accepted _ _ _ _ _ E1 R Hp). cbv zeta. fold c1.
      set (w2 := persisted _ _). set (c2 := sent w2 me_config).
      assert (T3 : trace (after_transmit serve w2 c2) = trace w ++
                EvRequest c1 :: [EvSetItem "access_token" (js_to_string t); EvRequest c2]).
      { simpl. by rewrite <- !app_assoc. }
      assert (F : ∀ e m, ∃ rest,
                 trace (emit (EvToastError m) (reaction e (after_transmit serve w2 c2)))
                 = trace w ++ EvRequest c1 :: rest).
      { intros e m.
        destruct (reaction_frame e (after_transmit serve w2 c2))
          as (_ & _ & _ & _ & evs & Hevs & _).
        eexists. cbn [emit trace]. rewrite Hevs, T3, <- !app_assoc. simpl. done. }
      destruct (answer_to serve w2 c2) as [r2|]; [|apply F].
      destruct (validate_status (status r2)); [|apply F].
      eexists. cbn [fst emit setUser trace]. rewrite T3, <- !app_assoc. simpl. done.
    + rewrite (login_credentials_malformed _ _ _ _ E1 R Hp). fold c1.
      eexists. cbn [fst emit trace]. rewrite T1, <- app_assoc. done.
  - rewrite (login_credentials_rejected _ _ _ R). cbv zeta. fold c1.
    destruct (reaction_frame (axios_error c1 (answer_to serve w c1))
                (after_transmit serve w c1)) as (_ & _ & _ & _ & evs & Hevs & _).
    eexists. cbn [fst emit trace]. rewrite Hevs, T1, <- !app_assoc. done.
Qed.

(** C4, as the code has it.  When the account is created, the effect that
    follows the signup request is the credential call of [login] with the
    same email and password, and [signup] ends as that [login] ends
    (success carries the created profile).  When creation is refused with
    HTTP 400 and detail "A user with this email already exists", no other
    request is issued and the message surfaced is the French sentence the
    code substitutes for it; another non-empty detail string is surfaced
    as it is. *)
Theorem signup_auto_login (userData : UserData) (w : World Srv) :
  let c := sent w (signup_config userData) in
  let w1 := after_transmit serve w c in
  let c1 := sent w1 (login_config (email userData) (password userData)) in
  let w' := (signup serve userData w).1 in
  let outcome := (signup serve userData w).2 in
  (∀ r, answer_to serve w c = Some r → validate_status (status r) = true →
     (∃ rest, trace w' = trace w ++ EvRequest c :: EvRequest c1 :: rest) ∧
     match (login serve (email userData) (password userData) w1).2 with
     | Resolved (AuthSuccess _) => outcome = Resolved (AuthSuccess (data r))
     | other => outcome = other
     end) ∧
  (∀ r, answer_to serve w c = Some r → status r = 400 →
     opt_prop (data r) "detail" = JStr "A user with this email already exists" →
     outcome = Resolved (AuthFailure (JStr "Un utilisateur avec cet email existe déjà")
                           (Some 400)) ∧
     trace w' = trace w ++
       [EvRequest c; EvToastError (JStr "Un utilisateur avec cet email existe déjà")]) ∧
  (∀ r s, answer_to serve w c = Some r → status r = 400 →
     opt_prop (data r) "detail" = JStr s → s ≠ "" →
     s ≠ "A user with this email already exists" →
     outcome = Resolved (AuthFailure (JStr s) (Some 400)) ∧
     trace w' = trace w ++ [EvRequest c; EvToastError (JStr s)]).
Proof.
  cbv zeta. set (c := sent w (signup_config userData)).
  split; [|split].
  - intros r H1 H2. rewrite (signup_created _ _ _ H1 H2). cbv zeta. fold c.
    destruct (login_first_effect (email userData) (password userData)
                (after_transmit serve w c)) as [rest Hrest].
    destruct (login serve (email userData) (password userData) _)
      as [w2 [[u|m sc]|e]] eqn:L; cbn [fst snd] in *.
    + split; [|done]. eexists. cbn [emit trace]. rewrite Hrest. simpl.
      rewrite <- !app_assoc. simpl. done.
    + split; [|done]. eexists. rewrite Hrest. simpl. rewrite <- !app_assoc. done.
    + exfalso.
      destruct (resolves (answer_to serve (after_transmit serve w c)
                  (sent (after_transmit serve w c)
                     (login_config (email userData) (password userData))))) eqn:R.
      * unfold resolves in R.
        destruct (answer_to serve (after_transmit serve w c) _) as [r1|] eqn:E1; [|done].
        destruct (prop (data r1) "access_token") as [t|] eqn:Hp.
        -- rewrite (login_credentials_accepted _ _ _ _ _ E1 R Hp) in L. cbv zeta in L.
           destruct (answer_to serve _ _) as [r2|] in L; [|done].
           by destruct (validate_status (status r2)) in L.
        -- by rewrite (login_credentials_malformed _ _ _ _ E1 R Hp) in L.
      * by rewrite (login_credentials_rejected _ _ _ R) in L.
  - intros r H1 Hs Hd.
    assert (R : resolves (answer_to serve w c) = false) by (by rewrite H1; simpl; rewrite Hs).
    rewrite (signup_refused _ _ R). cbv zeta. fold c. rewrite H1.
    rewrite (reaction_client_error _ r) by (simpl; done || lia).
    unfold signup_message, axios_error. cbn [err_response]. rewrite Hs, Hd. simpl.
    by rewrite Hs, <- app_assoc.
  - intros r s H1 Hs Hd Hne Hother.
    assert (R : resolves (answer_to serve w c) = false) by (by rewrite H1; simpl; rewrite Hs).
    rewrite (signup_refused _ _ R). cbv zeta. fold c. rewrite H1.
    rewrite (reaction_client_error _ r) by (simpl; done || lia).
    unfold signup_message, axios_error. cbn [err_response]. rewrite Hs, Hd.
    cbn [Z.eqb Pos.eqb strict_eq_str].
    destruct (String.eqb_spec s "A user with this email already exists"); [done|].
    unfold js_or. cbn [truthy]. destruct (String.eqb_spec s ""); [done|].
    cbn [negb fst snd emit trace fmap option_fmap option_map].
    unfold after_transmit. cbn [emit trace].
    by rewrite Hs, <- app_assoc.
Qed.

(** C8.  When the server refuses the signup with HTTP 422 and the body's
    [detail] maps its first field to a list whose first error carries a
    non-empty [msg] string, that [msg] is the message of the outcome (with
    status code 422) and of the error toast. *)
Theorem signup_validation_error (userData : UserData) (w : World Srv)
        (r : Response) (field : string) (first : JValue) (others : list JValue)
        (fields : list (string * JValue)) (msg : string) :
  let c := sent w (signup_config userData) in
  let w' := (signup serve userData w).1 in
  let outcome := (signup serve userData w).2 in
  answer_to serve w c = Some r →
  status r = 422 →
  opt_prop (data r) "detail" = JObj ((field, JArr (first :: others)) :: fields) →
  opt_prop first "msg" = JStr msg →
  msg ≠ "" →
  outcome = Resolved (AuthFailure (JStr msg) (Some 422)) ∧
  trace w' = trace w ++ [EvRequest c; EvToastError (JStr msg)].
Proof.
  cbv zeta. set (c := sent w (signup_config userData)).
  intros H1 Hs Hd Hm Hne.
  assert (R : resolves (answer_to serve w c) = false) by (by rewrite H1; simpl; rewrite Hs).
  rewrite (signup_refused _ _ R). cbv zeta. fold c. rewrite H1.
  rewrite (reaction_client_error _ r) by (simpl; done || lia).
  unfold signup_message, axios_error. cbn [err_response]. rewrite Hs, Hd.
  cbn [Z.eqb Pos.eqb js_or truthy object_values map snd hd].
  assert (Hp : prop first "msg" = Some (JStr msg)).
  { unfold prop. destruct first; try discriminate Hm. simpl in *. by rewrite Hm. }
  rewrite Hp. unfold js_or. cbn [truthy].
  destruct (String.eqb_spec msg ""); [done|].
  cbn [negb fst snd emit trace fmap option_fmap option_map].
  unfold after_transmit. cbn [emit trace].
  by rewrite Hs, <- app_assoc.
Qed.

Lemma reaction_keeps_identity (e : JsError) (w : World Srv) :
  ∃ evs, trace (reaction e w) = trace w ++ evs ∧ count is_set_user evs = 0%nat.
Proof.
  unfold reaction, response_rejected, bind.
  destruct (err_response e) as [r|]; simpl; [|by eexists].
  destruct (status r =? 401); simpl.
  - eexists. rewrite <- app_assoc. by split.
  - destruct (500 <=? status r); simpl; [by eexists|].
    exists []. by rewrite app_nil_r.
Qed.

(** What [handleSave] does to the cached identity, by the backend's
    answer. *)
Lemma handleSave_identity (formData : JValue) (l : Local) (w : World Srv) :
  let c := sent w (update_config formData) in
  let w' := (handleSave serve formData l w).1 in
  match answer_to serve w c with
  | Some r =>
      if validate_status (status r) then
        user w' = data r ∧
        w' = emit (EvToastSuccess (JStr "Profil mis à jour avec succès !"))
               (updateUser (data r) (after_transmit serve w c)).1 ∧
        (handleSave serve formData l w).2 = Resolved (mkLocal false false)
      else
        user w' = user w ∧
        count is_set_user (drop (length (trace w)) (trace w')) = 0%nat
  | None =>
      user w' = user w ∧
      count is_set_user (drop (length (trace w)) (trace w')) = 0%nat
  end.
Proof.
  cbv zeta.
  set (c := sent w (update_config formData)).
  assert (F : resolves (answer_to serve w c) = false →
              user (handleSave serve formData l w).1 = user w ∧
              count is_set_user
                (drop (length (trace w)) (trace (handleSave serve formData l w).1)) = 0%nat).
  { intros R. unfold handleSave, userAPI_updateProfile, api_put.
    fold (update_config formData).
    set (e := axios_error c (answer_to serve w c)).
    assert (Hcall : bind (api_request serve (update_config formData))
                      (fun response =>
                         do! updateUser (data response) in
                         do! toast_success (JStr "Profil mis à jour avec succès !") in
                         ret (mkLocal false (saving (mkLocal (isEditing l) true)))) w
                    = (reaction e (after_transmit serve w c), Rejected e))
      by apply (bind_rejected _ _ _ _ _ (api_request_failed _ w R)).
    rewrite (bind_resolved _ _ _
               (emit (EvToastError (JStr "Erreur lors de la mise à jour du profil"))
                  (reaction e (after_transmit serve w c)))
               (mkLocal (isEditing l) true))
      by (by rewrite (try_catch_rejected _ _ _ _ _ Hcall)).
    destruct (reaction_frame e (after_transmit serve w c)) as (Hu & _).
    destruct (reaction_keeps_identity e (after_transmit serve w c)) as (evs & Hevs & Hset).
    cbn [ret fst snd emit user trace]. split; [done|].
    rewrite Hevs. unfold after_transmit. cbn [emit trace].
    rewrite <- !app_assoc, drop_app_length. simpl.
    by rewrite count_app, Hset. }
  destruct (answer_to serve w c) as [r|] eqn:E; [|by apply F].
  destruct (validate_status (status r)) eqn:V; [|by apply F; simpl].
  unfold handleSave, userAPI_updateProfile, api_put. fold (update_config formData).
  set (w1 := after_transmit serve w c).
  assert (Hcall : bind (api_request serve (update_config formData))
                    (fun response =>
                       do! updateUser (data response) in
                       do! toast_success (JStr "Profil mis à jour avec succès !") in
                       ret (mkLocal false (saving (mkLocal (isEditing l) true)))) w
                  = (emit (EvToastSuccess (JStr "Profil mis à jour avec succès !"))
                       (updateUser (data r) w1).1,
                     Resolved (mkLocal false true)))
    by (by rewrite (bind_resolved _ _ _ _ _ (api_request_resolved _ _ _ E V))).
  rewrite (bind_resolved _ _ _ _ _ (try_catch_resolved _ _ _ _ _ Hcall)).
  done.
Qed.

End ControllerFacts.

(** ** Several failures, and the admin service *)

Section GlobalReaction.
Context {Srv : Type}.
Variable serve : Srv → Request → Srv * option Response.

Lemma count_snoc (p : Event → bool) (l : list Event) (e : Event) :
  count p (l ++ [e]) = (count p l + if p e then 1 else 0)%nat.
Proof. induction l as [|x l IH]; simpl; [lia|]. rewrite IH. lia. Qed.

(** One 401: one removal and one assignment of the login location. *)
Lemma reaction_unauthorized_trace (e : JsError) (w : World Srv) :
  is_unauthorized e = true →
  reaction e w =
    mkWorld (delete "access_token" (storage w)) "/login" (user w) (loading w)
      (trace w ++ [EvRemoveItem "access_token"; EvNavigate "/login"]) (server w).
Proof.
  unfold is_unauthorized, reaction, response_rejected, bind.
  destruct (err_response e) as [r|]; [|done].
  intros ->. simpl. unfold emit. simpl. by rewrite <- app_assoc.
Qed.

(** C5, as the code has it.  The interceptor keeps no record of an earlier
    401: when [n] calls each receive HTTP 401, the token is removed [n]
    times and the login location is assigned [n] times.  The result is
    that of the first reaction alone: storage without the token, location
    at the login view, cached identity untouched. *)
Theorem unauthorized_reaction_per_call (errors : list JsError) (w : World Srv) :
  forallb is_unauthorized errors = true →
  let w' := deliver errors w in
  let evs := drop (length (trace w)) (trace w') in
  trace w' = trace w ++ evs ∧
  count is_clear evs = length errors ∧
  count is_redirect evs = length errors ∧
  count is_request evs = 0%nat ∧
  user w' = user w ∧
  match errors with
  | [] => w' = w
  | first :: _ =>
      token w' = None ∧ href w' = "/login" ∧
      storage w' = storage (deliver [first] w) ∧ href w' = href (deliver [first] w)
  end.
Proof.
  cbv zeta. revert w. induction errors as [|e rest IH]; intros w Hall.
  - simpl. rewrite drop_all. by rewrite app_nil_r.
  - simpl in Hall. apply andb_prop in Hall as [He Hrest].
    change (deliver (e :: rest) w) with (deliver rest (reaction e w)).
    change (deliver [e] w) with (reaction e w).
    pose proof (reaction_unauthorized_trace e w He) as Hw1.
    remember (reaction e w) as w1 eqn:E1. clear E1.
    assert (T1 : trace w1
                 = trace w ++ [EvRemoveItem "access_token"; EvNavigate "/login"])
      by (by rewrite Hw1).
    assert (S1 : storage w1 = delete "access_token" (storage w)) by (by rewrite Hw1).
    assert (S2 : href w1 = "/login") by (by rewrite Hw1).
    assert (U1 : user w1 = user w) by (by rewrite Hw1).
    clear Hw1.
    destruct (IH w1 Hrest) as (Htr & Hc & Hr & Hq & Hu & Hfin). clear IH.
    set (evs := drop (length (trace w1)) (trace (deliver rest w1))) in *.
    assert (Hdrop : drop (length (trace w)) (trace (deliver rest w1))
                    = [EvRemoveItem "access_token"; EvNavigate "/login"] ++ evs).
    { rewrite Htr, T1, <- app_assoc. apply drop_app_length. }
    rewrite Hdrop. rewrite !count_app, Hc, Hr, Hq. simpl.
    split; [by rewrite Htr, T1, <- app_assoc|].
    split; [done|]. split; [done|]. split; [done|].
    split; [by rewrite Hu|].
    destruct rest as [|e' rest'].
    + simpl in *. subst. unfold token. rewrite S1, S2.
      split; [apply lookup_delete_eq|done].
    + destruct Hfin as (Ht & Hh & Hs & Hh').
      split; [done|]. split; [done|].
      simpl in Hrest. apply andb_prop in Hrest as [He' _].
      change (deliver [e'] w1) with (reaction e' w1) in Hs, Hh'.
      rewrite (reaction_unauthorized_trace e' w1 He') in Hs, Hh'.
      split.
      * etrans; [exact Hs|]. cbn [storage]. rewrite S1.
        apply delete_id, lookup_delete_eq.
      * etrans; [exact Hh'|]. cbn [href]. by rewrite S2.
Qed.

(** Whatever the backend answers, [makeRequest] leaves exactly one trace
    entry, the request itself, and changes neither the storage nor the
    location nor the cached identity. *)
Lemma makeRequest_frame (endpoint : string) (options : Options) (w : World Srv) :
  let token := match storage w !! "access_token" with
               | Some s => JStr s
               | None => JNull
               end in
  let w' := (makeRequest serve endpoint options w).1 in
  trace w' = trace w ++ [EvRequest (request_config token endpoint options)] ∧
  storage w' = storage w ∧ href w' = href w ∧ user w' = user w.
Proof.
  cbv zeta. unfold makeRequest, bind, try_catch, getItem, fetch, transmit, bind.
  cbn [fst snd].
  destruct (serve (server w) _) as [s' [resp|]]; cbn; [|done].
  destruct (response_ok resp); cbn.
  - unfold response_json. by destruct (data resp).
  - unfold response_json. destruct (data resp) eqn:D; cbn; try done;
      unfold prop; rewrite ?D; cbn; done.
Qed.

(** C6, as the code has it.  Every call on the axios instance [api] sends
    the request the request interceptor returns: with a non-empty token
    [t] stored its Authorization header is "Bearer t"; otherwise the
    headers are the caller's, so a caller that sets no Authorization
    header sends none.  [makeRequest] of the admin service does not go
    through the instance: it sends its own request, which with a token [t]
    stored and no [options.headers] carries "Bearer t", and no interceptor
    runs on its answer. *)
Theorem bearer_attachment (config : Request) (w : World Srv) :
  (∃ rest, trace (api_request serve config w).1 =
           trace w ++ EvRequest (sent w config) :: rest) ∧
  method (sent w config) = method config ∧
  url (sent w config) = url config ∧
  body (sent w config) = body config ∧
  authorization (sent w config) =
    match token w with
    | Some t => if String.eqb t "" then authorization config
                else Some ("Bearer " +:+ t)
    | None => authorization config
    end ∧
  (authorization config = None →
   ∀ t, authorization (sent w config) = Some ("Bearer " +:+ t) ↔
        token w = Some t ∧ t ≠ "") ∧
  (∀ endpoint options t,
     token w = Some t → opt_headers options = None →
     let r := request_config (JStr t) endpoint options in
     let w' := (makeRequest serve endpoint options w).1 in
     authorization r = Some ("Bearer " +:+ t) ∧
     trace w' = trace w ++ [EvRequest r] ∧
     storage w' = storage w ∧ href w' = href w).
Proof.
  assert (Hauth : authorization (sent w config) =
    match token w with
    | Some t => if String.eqb t "" then authorization config
                else Some ("Bearer " +:+ t)
    | None => authorization config
    end).
  { unfold sent, request_interceptor, bind, getItem, ret, token, authorization.
    destruct (storage w !! "access_token") as [t|]; simpl; [|done].
    destruct (String.eqb t ""); simpl; [done|]. apply lookup_insert_eq. }
  split; [|split; [|split; [|split; [|split; [|split]]]]].
  - rewrite api_request_run. cbv zeta.
    destruct (answer_to serve w (sent w config)) as [r|].
    + destruct (validate_status (status r)).
      * by exists [].
      * rewrite response_rejected_run.
        destruct (reaction_frame (AxiosError (sent w config) (Some r))
                    (after_transmit serve w (sent w config)))
          as (_ & _ & _ & _ & evs & Hevs & _).
        exists evs. cbn [fst]. rewrite Hevs. simpl. by rewrite <- app_assoc.
    + rewrite response_rejected_run.
      destruct (reaction_frame (AxiosError (sent w config) None)
                  (after_transmit serve w (sent w config)))
        as (_ & _ & _ & _ & evs & Hevs & _).
      exists evs. cbn [fst]. rewrite Hevs. simpl. by rewrite <- app_assoc.
  - unfold sent, request_interceptor, bind, getItem, ret.
    destruct (storage w !! "access_token") as [t|]; simpl; [|done].
    by destruct (String.eqb t "").
  - unfold sent, request_interceptor, bind, getItem, ret.
    destruct (storage w !! "access_token") as [t|]; simpl; [|done].
    by destruct (String.eqb t "").
  - unfold sent, request_interceptor, bind, getItem, ret.
    destruct (storage w !! "access_token") as [t|]; simpl; [|done].
    by destruct (String.eqb t "").
  - exact Hauth.
  - intros Hnone t. rewrite Hauth, Hnone.
    destruct (token w) as [t'|]; [|split; [done|by intros [? _]]].
    destruct (String.eqb_spec t' "") as [E|Hne].
    + split; [done|]. intros [[= <-] ?]. done.
    + split.
      * intros [= H]. cbv [String.append] in H. by subst.
      * by intros [[= ->] _].
  - intros endpoint options t Ht Hh. cbv zeta.
    destruct (makeRequest_frame endpoint options w) as (Htr & Hst & Hhref & _).
    unfold token in Ht. rewrite Ht in Htr.
    split; [|done].
    unfold authorization, request_config. rewrite Hh. simpl.
    rewrite lookup_insert_ne by done. apply lookup_singleton_eq.
Qed.

End GlobalReaction.

(** ** The theorems at concrete worlds *)

Lemma login_two_step_sequencing_witness :
  answer_to scripted w_login_ok
    (sent w_login_ok (login_config "admin@example.com" "admin123")) = ok token_body ∧
  (login scripted "admin@example.com" "admin123" w_login_ok).2
    = Resolved (AuthSuccess admin_identity) ∧
  user (login scripted "admin@example.com" "admin123" w_login_ok).1 = admin_identity ∧
  ∃ rest,
    trace (login scripted "admin@example.com" "admin123" w_login_ok).1 =
      [EvRequest (sent w_login_ok (login_config "admin@example.com" "admin123"));
       EvSetItem "access_token" "abc";
       EvRequest (sent w_outage me_config)] ++ rest.
Proof.
  destruct (login_two_step_sequencing scripted "admin@example.com" "admin123" w_login_ok)
    as (H200 & _ & Hcached).
  destruct (H200 (mkResponse 200 token_body) "abc") as (rest & Htrace & _ & Hiff & _);
    [reflexivity | reflexivity | reflexivity |].
  assert (Hout : (login scripted "admin@example.com" "admin123" w_login_ok).2
                 = Resolved (AuthSuccess admin_identity)).
  { apply Hiff. exists (mkResponse 200 admin_identity). repeat split; reflexivity. }
  split; [reflexivity|]. split; [exact Hout|]. split; [exact (Hcached _ Hout)|].
  exists rest. exact Htrace.
Defined.

Lemma login_invalid_credentials_witness :
  anonymous w_login_refused ∧
  (login scripted "x@example.com" "wrong" w_login_refused).2
    = Resolved (AuthFailure (JStr "Incorrect email or password") None) ∧
  anonymous (login scripted "x@example.com" "wrong" w_login_refused).1.
Proof.
  assert (Hanon : anonymous w_login_refused) by (split; reflexivity).
  destruct (login_invalid_credentials scripted "x@example.com" "wrong" w_login_refused
              (mkResponse 400 (detail "Incorrect email or password")))
    as (_ & _ & _ & _ & Hstay & Hmsg);
    [reflexivity | left; reflexivity |].
  destruct (Hmsg "Incorrect email or password") as [Hout _];
    [reflexivity | reflexivity | discriminate |].
  split; [exact Hanon|]. split; [exact Hout|]. exact (Hstay Hanon).
Defined.

Lemma signup_auto_login_witness :
  (∃ rest,
     trace (signup scripted alice w_signup_ok).1 =
       EvRequest (sent w_signup_ok (signup_config alice))
       :: EvRequest (sent w_signup_ok (login_config "alice@example.com" "s3cret"))
       :: rest) ∧
  (signup scripted alice w_signup_duplicate).2
    = Resolved (AuthFailure (JStr "Un utilisateur avec cet email existe déjà") (Some 400)) ∧
  count is_request (trace (signup scripted alice w_signup_duplicate).1) = 1%nat.
Proof.
  destruct (signup_auto_login scripted alice w_signup_ok) as (Hcreated & _ & _).
  destruct (Hcreated (mkResponse 200 (JObj [("email", JStr "alice@example.com");
                                            ("id", account_id)])))
    as ((rest & Htrace) & _); [reflexivity | reflexivity |].
  destruct (signup_auto_login scripted alice w_signup_duplicate) as (_ & Hdup & _).
  destruct (Hdup (mkResponse 400 (detail duplicate_email))) as (Hout & Htr);
    [reflexivity | reflexivity | reflexivity |].
  split; [exists rest; exact Htrace|]. split; [exact Hout|].
  rewrite Htr. reflexivity.
Defined.

Lemma signup_validation_error_witness :
  (signup scripted alice w_signup_invalid).2
    = Resolved (AuthFailure (JStr "value is not a valid email address") (Some 422)) ∧
  last (trace (signup scripted alice w_signup_invalid).1)
    = Some (EvToastError (JStr "value is not a valid email address")).
Proof.
  destruct (signup_validation_error scripted alice w_signup_invalid
              (mkResponse 422 validation_body) "email"
              (JObj [("msg", JStr "value is not a valid email address");
                     ("type", JStr "value_error.email")])
              []
              [("password", JArr [JObj [("msg", JStr "field required")]])]
              "value is not a valid email address")
    as (Hout & Htr);
    [reflexivity | reflexivity | reflexivity | reflexivity | discriminate |].
  split; [exact Hout|]. rewrite Htr. reflexivity.
Defined.

Lemma checkAuth_failure_discards_token_witness :
  token w_outage = Some "abc" ∧
  answer_to scripted w_outage (sent w_outage me_config) = failed 503 JNull ∧
  token (checkAuth scripted w_outage).1 = None ∧
  loading (checkAuth scripted w_outage).1 = false.
Proof.
  destruct (checkAuth_failure_discards_token scripted w_outage "abc")
    as (_ & Htok & _ & Hload & _);
    [reflexivity | discriminate | reflexivity |].
  split; [reflexivity|]. split; [reflexivity|]. split; [exact Htok | exact Hload].
Defined.

Lemma logout_local_idempotent_witness :
  anonymous w_login_refused ∧
  storage (logout w_login_refused).1 = storage w_login_refused ∧
  anonymous (logout w_login_refused).1 ∧
  token (logout w_expired).1 = None ∧ user (logout w_expired).1 = JNull.
Proof.
  assert (Hanon : anonymous w_login_refused) by (split; reflexivity).
  destruct (logout_local_idempotent w_login_refused) as (_ & _ & _ & _ & _ & _ & Hstay & _).
  destruct (Hstay Hanon) as (Hst & _ & Hanon').
  destruct (logout_local_idempotent w_expired) as (_ & Htok & Huser & _).
  split; [exact Hanon|]. split; [exact Hst|]. split; [exact Hanon'|].
  split; [exact Htok | exact Huser].
Defined.

Lemma unauthorized_reaction_per_call_witness :
  count is_clear (drop 0 (trace (deliver two_failures w_expired))) = 2%nat ∧
  count is_redirect (drop 0 (trace (deliver two_failures w_expired))) = 2%nat ∧
  token (deliver two_failures w_expired) = None ∧
  href (deliver two_failures w_expired) = "/login".
Proof.
  destruct (unauthorized_reaction_per_call two_failures w_expired)
    as (_ & Hclear & Hredirect & _ & _ & Htok & Hhref & _); [reflexivity|].
  split; [exact Hclear|]. split; [exact Hredirect|]. split; [exact Htok | exact Hhref].
Defined.

Lemma bearer_attachment_witness :
  authorization (sent w_expired me_config) = Some "Bearer abc" ∧
  authorization (sent w_login_ok me_config) = None ∧
  authorization (request_config (JStr "abc") "/dashboard/stats" no_options)
    = Some "Bearer abc" ∧
  storage (makeRequest scripted "/dashboard/stats" no_options w_expired).1
    = storage w_expired.
Proof.
  destruct (bearer_attachment scripted me_config w_expired)
    as (_ & _ & _ & _ & _ & Hiff & Hadmin).
  destruct (Hadmin "/dashboard/stats" no_options "abc") as (Hhdr & _ & Hst & _);
    [reflexivity | reflexivity |].
  destruct (bearer_attachment scripted me_config w_login_ok)
    as (_ & _ & _ & _ & Hnone & _).
  split; [apply (Hiff eq_refl "abc"); split; [reflexivity | discriminate]|].
  split; [exact Hnone|]. split; [exact Hhdr | exact Hst].
Defined.

(** ** Where the code departs from the specification *)

(** C4.  A duplicate-email refusal is surfaced in French, not as the
    server's string. *)
Lemma signup_duplicate_email_translated :
  answer_to scripted w_signup_duplicate (sent w_signup_duplicate (signup_config alice))
    = failed 400 (detail "A user with this email already exists") ∧
  surfaced (signup scripted alice w_signup_duplicate).2
    = Some (JStr "Un utilisateur avec cet email existe déjà") ∧
  surfaced (signup scripted alice w_signup_duplicate).2
    ≠ Some (JStr "A user with this email already exists").
Proof. split; [reflexivity|]. split; [reflexivity|]. discriminate. Qed.

(** C5.  Two calls answered 401: two removals and two redirects. *)
Lemma two_unauthorized_two_reactions :
  forallb is_unauthorized two_failures = true ∧
  count is_clear (trace (deliver two_failures w_expired)) = 2%nat ∧
  count is_redirect (trace (deliver two_failures w_expired)) = 2%nat ∧
  count is_clear (trace (deliver two_failures w_expired)) ≠ 1%nat ∧
  count is_redirect (trace (deliver two_failures w_expired)) ≠ 1%nat.
Proof. repeat split; try reflexivity; discriminate. Qed.

(** C6.  With an empty Credential Store the admin service still sends an
    Authorization header, and a 401 answer to it triggers no reaction. *)
Lemma admin_request_bypasses_pipeline :
  token w_admin_anonymous = None ∧
  map authorization
    (requests (trace (makeRequest scripted "/dashboard/stats" no_options
                        w_admin_anonymous).1))
    = [Some "Bearer null"] ∧
  token (makeRequest scripted "/dashboard/stats" no_options w_expired).1 = Some "abc" ∧
  href (makeRequest scripted "/dashboard/stats" no_options w_expired).1 = "/admin" ∧
  token (api_request scripted (mkRequest GET "/dashboard/stats" ∅ NoBody) w_expired).1
    = None.
Proof. repeat split; reflexivity. Qed.

(** ** Further properties of the pipeline and of the controller *)

Section MoreFacts.
Context {Srv : Type}.
Variable serve : Srv → Request → Srv * option Response.

Lemma added_app (w w' : World Srv) (evs : list Event) :
  trace w' = trace w ++ evs → added w w' = evs.
Proof. intros H. unfold added. rewrite H. apply drop_app_length. Qed.

Lemma js_or_truthy (a b : JValue) : truthy b = true → truthy (js_or a b) = true.
Proof. intros H. unfold js_or. by destruct (truthy a) eqn:E. Qed.

Lemma login_message_truthy (e : JsError) : truthy (login_message e) = true.
Proof.
  unfold login_message. destruct (err_response e) as [r|].
  - destruct (status r =? 400); [by apply js_or_truthy|].
    destruct (status r =? 401); [done|]. by destruct (500 <=? status r).
  - by destruct (err_has_request e).
Qed.

(** What the interceptor's reaction does to the storage and the location. *)
Lemma reaction_storage (e : JsError) (w : World Srv) :
  storage (reaction e w) =
    (if is_unauthorized e then delete "access_token" (storage w) else storage w) ∧
  href (reaction e w) = (if is_unauthorized e then "/login" else href w).
Proof.
  unfold reaction, response_rejected, bind, is_unauthorized.
  destruct (err_response e) as [r|]; simpl; [|done].
  destruct (status r =? 401); simpl; [done|]. by destruct (500 <=? status r).
Qed.

Lemma resolved_not_unauthorized (config' : Request) (r : Response) :
  validate_status (status r) = true →
  is_unauthorized (axios_error config' (Some r)) = false.
Proof.
  unfold validate_status, is_unauthorized. simpl. intros H.
  apply andb_prop in H as [_ H]. apply Z.ltb_lt in H.
  apply Z.eqb_neq. lia.
Qed.

(** X1.  The request interceptor as a function on the config object it is
    given.  It always resolves, with a config that has the same method, url
    and body and the same header properties, except the one named
    [Authorization]: with a non-empty token stored that property is set to
    "Bearer " and the token, overwriting a value the caller put there;
    otherwise it is left as the caller set it.  It does not modify the
    world, and applying it to its own result returns that result. *)
Theorem request_interceptor_idempotent (config : Request) (w : World Srv) :
  ∃ config',
    request_interceptor config w = (w, Resolved config') ∧
    request_interceptor config' w = (w, Resolved config') ∧
    method config' = method config ∧
    url config' = url config ∧
    body config' = body config ∧
    delete "Authorization" (headers config')
      = delete "Authorization" (headers config) ∧
    headers config' !! "Authorization" =
      match token w with
      | Some t => if String.eqb t "" then headers config !! "Authorization"
                  else Some ("Bearer " +:+ t)
      | None => headers config !! "Authorization"
      end.
Proof.
  unfold request_interceptor, bind, getItem, ret, token.
  destruct (storage w !! "access_token") as [t|]; simpl; [|by eexists].
  destruct (String.eqb t "") eqn:Et; simpl; [by eexists|].
  eexists. split; [reflexivity|]. cbn [method url headers body].
  split; [by rewrite insert_insert_eq|].
  split; [done|]. split; [done|]. split; [done|].
  split; [by rewrite delete_insert_eq | apply lookup_insert_eq].
Qed.

(** [checkBackendHealth] as a function of the backend's answer. *)
Lemma checkBackendHealth_run (w : World Srv) :
  checkBackendHealth serve w =
    let c := sent w health_config in
    let answer := answer_to serve w c in
    ((api_request serve health_config w).1,
     Resolved (match answer with
               | Some r => if validate_status (status r) then HealthData (data r)
                           else HealthError (axios_error c answer)
               | None => HealthError (axios_error c answer)
               end)).
Proof.
  cbv zeta. unfold checkBackendHealth, api_get. fold health_config.
  set (c := sent w health_config).
  assert (F : resolves (answer_to serve w c) = false →
              try_catch
                (let! response := api_request serve health_config in
                 ret (HealthData (data response)))
                (fun error => ret (HealthError error)) w
              = ((api_request serve health_config w).1,
                 Resolved (HealthError (axios_error c (answer_to serve w c))))).
  { intros R. pose proof (api_request_failed serve health_config w R) as Hrun.
    cbv zeta in Hrun. fold c in Hrun.
    by rewrite (try_catch_rejected _ _ _ _ _ (bind_rejected _ _ _ _ _ Hrun)), Hrun. }
  destruct (answer_to serve w c) as [r|] eqn:E; [|by apply F].
  destruct (validate_status (status r)) eqn:V; [|apply F; by simpl].
  pose proof (api_request_resolved serve health_config w r E V) as Hrun.
  by rewrite (try_catch_resolved _ _ _ _ _ (bind_resolved _ _ _ _ _ Hrun)), Hrun.
Qed.

(** X2.  [checkBackendHealth] never rejects: a failure is returned as a value.
    The world is the one the pipeline leaves, so a 401 answer to the health
    call still removes the token. *)
Theorem health_check_swallows_failure (w : World Srv) :
  let c := sent w health_config in
  let answer := answer_to serve w c in
  (checkBackendHealth serve w).1 = (api_request serve health_config w).1 ∧
  (checkBackendHealth serve w).2 =
    Resolved (match answer with
              | Some r => if validate_status (status r) then HealthData (data r)
                          else HealthError (axios_error c answer)
              | None => HealthError (axios_error c answer)
              end) ∧
  token (checkBackendHealth serve w).1 =
    (if is_unauthorized (axios_error c answer) then None else token w).
Proof.
  cbv zeta. rewrite checkBackendHealth_run. cbv zeta. cbn [fst snd].
  split; [done|]. split; [done|].
  set (c := sent w health_config).
  rewrite api_request_run. cbv zeta. fold c.
  destruct (answer_to serve w c) as [r|] eqn:E.
  - destruct (validate_status (status r)) eqn:V.
    + by rewrite (resolved_not_unauthorized c r V).
    + rewrite response_rejected_run. cbn [fst]. unfold token.
      rewrite (proj1 (reaction_storage _ _)). unfold axios_error.
      destruct (is_unauthorized _); [apply lookup_delete_eq | done].
  - rewrite response_rejected_run. cbn [fst]. unfold token.
    rewrite (proj1 (reaction_storage _ _)). unfold axios_error.
    destruct (is_unauthorized _); [apply lookup_delete_eq | done].
Qed.

(** X3.  The landing page's status is 'healthy' whatever the backend does: the
    [catch] branch that would set 'error' is never taken, because
    [checkBackendHealth] never rejects. *)
Theorem landing_status_always_healthy (w : World Srv) :
  (LandingPage.healthEffect serve w).2 = Resolved "healthy" ∧
  (LandingPage.healthEffect serve w).1 = (api_request serve health_config w).1.
Proof.
  unfold LandingPage.healthEffect.
  rewrite (try_catch_resolved _ _ _ _ _
             (bind_resolved _ _ _ _ _ (checkBackendHealth_run w))).
  done.
Qed.

(** The shape of what [login] returns. *)
Lemma login_outcome_shape (email password : string) (w : World Srv) :
  ∃ o, (login serve email password w).2 = Resolved o ∧
       match o with
       | AuthSuccess u => user (login serve email password w).1 = u
       | AuthFailure m sc =>
           truthy m = true ∧ sc = None ∧
           last (trace (login serve email password w).1) = Some (EvToastError m)
       end.
Proof.
  set (c1 := sent w (login_config email password)).
  assert (F : ∀ e (w1 : World Srv), ∃ o,
             (emit (EvToastError (login_message e)) w1,
              Resolved (AuthFailure (login_message e) None)).2 = Resolved o ∧
             match o with
             | AuthSuccess u =>
                 user (emit (EvToastError (login_message e)) w1,
                       Resolved (AuthFailure (login_message e) None)).1 = u
             | AuthFailure m sc =>
                 truthy m = true ∧ sc = None ∧
                 last (trace (emit (EvToastError (login_message e)) w1,
                              Resolved (AuthFailure (login_message e) None)).1)
                 = Some (EvToastError m)
             end).
  { intros e w1. eexists. split; [done|]. cbn [fst emit trace].
    split; [apply login_message_truthy|]. split; [done | apply last_snoc]. }
  destruct (resolves (answer_to serve w c1)) eqn:R.
  - unfold resolves in R. destruct (answer_to serve w c1) as [r1|] eqn:E1; [|done].
    destruct (prop (data r1) "access_token") as [t|] eqn:Hp.
    + rewrite (login_credentials_accepted serve _ _ _ _ _ E1 R Hp). cbv zeta.
      set (w2 := persisted _ _).
      destruct (answer_to serve w2 (sent w2 me_config)) as [r2|]; [|apply F].
      destruct (validate_status (status r2)); [|apply F].
      by eexists.
    + rewrite (login_credentials_malformed serve _ _ _ _ E1 R Hp). apply F.
  - rewrite (login_credentials_rejected serve _ _ _ R). apply F.
Qed.

(** X4.  [login] never rejects.  A failure always carries a truthy message,
    which is also the text of the last toast, and no status code; a success
    carries the cached user. *)
Theorem login_always_resolves (email password : string) (w : World Srv) :
  ∃ o, (login serve email password w).2 = Resolved o ∧
       match o with
       | AuthSuccess u => user (login serve email password w).1 = u
       | AuthFailure m sc =>
           truthy m = true ∧ sc = None ∧
           last (trace (login serve email password w).1) = Some (EvToastError m)
       end.
Proof. apply login_outcome_shape. Qed.

(** X5.  When the credential call succeeds and the identity fetch then fails,
    [login] reports a failure but the token it has just stored stays in the
    Credential Store, unless the identity fetch was answered 401; the cached
    identity is not touched. *)
Theorem login_identity_failure_keeps_token (email password : string) (w : World Srv)
        (r1 : Response) (tok : string) :
  let c1 := sent w (login_config email password) in
  let w2 := persisted tok (after_transmit serve w c1) in
  let c2 := sent w2 me_config in
  let e2 := axios_error c2 (answer_to serve w2 c2) in
  let w' := (login serve email password w).1 in
  answer_to serve w c1 = Some r1 →
  validate_status (status r1) = true →
  opt_prop (data r1) "access_token" = JStr tok →
  resolves (answer_to serve w2 c2) = false →
  (login serve email password w).2 = Resolved (AuthFailure (login_message e2) None) ∧
  user w' = user w ∧
  token w' = (if is_unauthorized e2 then None else Some tok) ∧
  href w' = (if is_unauthorized e2 then "/login" else href w).
Proof.
  cbv zeta. intros E1 V1 Ht R2.
  assert (Hp : prop (data r1) "access_token" = Some (JStr tok)).
  { unfold prop. destruct (data r1); try discriminate Ht. simpl in *. by rewrite Ht. }
  rewrite (login_credentials_accepted serve _ _ _ _ _ E1 V1 Hp). cbv zeta.
  change (js_to_string (JStr tok)) with tok.
  set (w2 := persisted tok _) in *. set (c2 := sent w2 me_config) in *.
  assert (F : ∀ ans, answer_to serve w2 c2 = ans →
            let e := axios_error c2 ans in
            user (emit (EvToastError (login_message e))
                    (reaction e (after_transmit serve w2 c2))) = user w ∧
            token (emit (EvToastError (login_message e))
                     (reaction e (after_transmit serve w2 c2)))
              = (if is_unauthorized e then None else Some tok) ∧
            href (emit (EvToastError (login_message e))
                    (reaction e (after_transmit serve w2 c2)))
              = (if is_unauthorized e then "/login" else href w)).
  { intros ans _ e.
    destruct (reaction_frame e (after_transmit serve w2 c2)) as (Hu & _).
    destruct (reaction_storage e (after_transmit serve w2 c2)) as (Hs & Hh).
    unfold token. cbn [emit storage user href]. rewrite Hu, Hs, Hh.
    split; [done|]. destruct (is_unauthorized e).
    - split; [apply lookup_delete_eq | done].
    - split; [apply lookup_insert_eq | done]. }
  destruct (answer_to serve w2 c2) as [r2|] eqn:E2.
  - simpl in R2. rewrite R2. cbn [fst snd]. split; [done|]. by apply F.
  - cbn [fst snd]. split; [done|]. by apply F.
Qed.

(** X6.  A 2xx answer to the credential call whose body is not [null] but has no
    [access_token]: [login] stores the text "undefined" as the token and
    sends the identity fetch with "Bearer undefined". *)
Theorem login_missing_token_stores_undefined (email password : string)
        (w : World Srv) (r1 : Response) :
  let c1 := sent w (login_config email password) in
  let c2 := sent (persisted "undefined" (after_transmit serve w c1)) me_config in
  answer_to serve w c1 = Some r1 →
  validate_status (status r1) = true →
  nullish (data r1) = false →
  opt_prop (data r1) "access_token" = JUndefined →
  authorization c2 = Some "Bearer undefined" ∧
  ∃ rest, trace (login serve email password w).1 =
          trace w ++ [EvRequest c1; EvSetItem "access_token" "undefined";
                      EvRequest c2] ++ rest.
Proof.
  cbv zeta. intros E1 V1 Hn Hu.
  assert (Hp : prop (data r1) "access_token" = Some JUndefined).
  { unfold prop. by rewrite Hn, Hu. }
  split.
  { unfold authorization, sent, request_interceptor, bind, getItem, ret, persisted, setItem.
    cbn [fst emit storage]. rewrite lookup_insert_eq. simpl. apply lookup_insert_eq. }
  rewrite (login_credentials_accepted serve _ _ _ _ _ E1 V1 Hp). cbv zeta.
  change (js_to_string JUndefined) with "undefined".
  set (w2 := persisted "undefined" _). set (c2 := sent w2 me_config).
  assert (T3 : trace (after_transmit serve w2 c2) = trace w ++
            [EvRequest (sent w (login_config email password));
             EvSetItem "access_token" "undefined"; EvRequest c2]).
  { simpl. by rewrite <- !app_assoc. }
  assert (F : ∀ e m, ∃ rest,
             trace (emit (EvToastError m) (reaction e (after_transmit serve w2 c2)))
             = trace w ++ [EvRequest (sent w (login_config email password));
                           EvSetItem "access_token" "undefined"; EvRequest c2] ++ rest).
  { intros e m.
    destruct (reaction_frame e (after_transmit serve w2 c2))
      as (_ & _ & _ & _ & evs & Hevs & _).
    eexists. cbn [emit trace]. rewrite Hevs, T3, <- !app_assoc. simpl. done. }
  destruct (answer_to serve w2 c2) as [r2|]; [|apply F].
  destruct (validate_status (status r2)); [|apply F].
  eexists. cbn [fst emit setUser trace]. rewrite T3, <- !app_assoc. simpl. done.
Qed.

(** X7.  A 2xx answer to the credential call with a [null] body: [login] reports
    the generic failure, writes no token and issues no second request. *)
Theorem login_null_body_fails (email password : string) (w : World Srv)
        (r1 : Response) :
  let c1 := sent w (login_config email password) in
  let w' := (login serve email password w).1 in
  answer_to serve w c1 = Some r1 →
  validate_status (status r1) = true →
  nullish (data r1) = true →
  (login serve email password w).2
    = Resolved (AuthFailure (JStr "Erreur de connexion") None) ∧
  added w w' = [EvRequest c1; EvToastError (JStr "Erreur de connexion")] ∧
  storage w' = storage w ∧ user w' = user w ∧ href w' = href w.
Proof.
  cbv zeta. intros E1 V1 Hn.
  assert (Hp : prop (data r1) "access_token" = None) by (unfold prop; by rewrite Hn).
  rewrite (login_credentials_malformed serve _ _ _ _ E1 V1 Hp).
  cbn [fst snd]. split; [done|]. split; [|done].
  apply added_app. simpl. by rewrite <- app_assoc.
Qed.

(** X8.  How many error notifications a refused credential call produces: the
    pipeline's toast and [login]'s own on a status of 500 or more and when
    no response arrives; only [login]'s otherwise (on 401 the pipeline
    redirects instead). *)
Theorem login_failure_toasts (email password : string) (w : World Srv) :
  let c1 := sent w (login_config email password) in
  let w' := (login serve email password w).1 in
  resolves (answer_to serve w c1) = false →
  count is_toast_error (added w w') =
    match answer_to serve w c1 with
    | Some r => if status r =? 401 then 1%nat
                else if 500 <=? status r then 2%nat else 1%nat
    | None => 2%nat
    end.
Proof.
  cbv zeta. intros R. rewrite (login_credentials_rejected serve _ _ _ R). cbv zeta.
  set (c1 := sent w (login_config email password)).
  unfold axios_error, reaction, response_rejected, bind.
  destruct (answer_to serve w c1) as [r|]; cbn [err_response].
  - destruct (status r =? 401).
    + erewrite added_app; [|simpl; rewrite <- !app_assoc; reflexivity]. done.
    + destruct (500 <=? status r).
      * erewrite added_app; [|simpl; rewrite <- !app_assoc; reflexivity]. done.
      * erewrite added_app; [|simpl; rewrite <- !app_assoc; reflexivity]. done.
  - erewrite added_app; [|simpl; rewrite <- !app_assoc; reflexivity]. done.
Qed.

(** With no token, or an empty one, [checkAuth] only sets [loading]. *)
Lemma checkAuth_idle (w : World Srv) :
  token w = None ∨ token w = Some "" →
  checkAuth serve w = (settled w, Resolved tt).
Proof.
  unfold token, checkAuth, bind, getItem. intros [H | H]; by rewrite H.
Qed.

(** X9.  At startup with an empty Credential Store, or with an empty string
    stored, [checkAuth] issues no request: it only ends the loading state. *)
Theorem checkAuth_without_token (w : World Srv) :
  let w' := (checkAuth serve w).1 in
  token w = None ∨ token w = Some "" →
  (checkAuth serve w).2 = Resolved tt ∧
  trace w' = trace w ∧ storage w' = storage w ∧ user w' = user w ∧
  server w' = server w ∧ loading w' = false.
Proof. cbv zeta. intros H. by rewrite (checkAuth_idle w H). Qed.

(** X10.  At startup with a non-empty token [t] stored, when the identity fetch
    resolves, [checkAuth] sends that one request with "Bearer t", caches the
    returned body as the identity and keeps the token. *)
Theorem checkAuth_restores_identity (w : World Srv) (t : string) (r : Response) :
  let c := sent w me_config in
  let w' := (checkAuth serve w).1 in
  token w = Some t → t ≠ "" →
  answer_to serve w c = Some r →
  validate_status (status r) = true →
  (checkAuth serve w).2 = Resolved tt ∧
  authorization c = Some ("Bearer " +:+ t) ∧
  added w w' = [EvRequest c; EvSetUser (data r)] ∧
  user w' = data r ∧ token w' = Some t ∧ loading w' = false.
Proof.
  cbv zeta. intros Ht Hne E V. unfold checkAuth.
  assert (Hget : getItem "access_token" w = (w, Resolved (JStr t))).
  { unfold getItem. unfold token in Ht. by rewrite Ht. }
  rewrite (bind_resolved _ _ _ _ _ Hget).
  assert (Htruthy : truthy (JStr t) = true).
  { simpl. by destruct (String.eqb_spec t ""). }
  rewrite Htruthy. unfold userAPI_me, api_get. fold me_config.
  pose proof (api_request_resolved serve me_config w r E V) as Hrun.
  rewrite (bind_resolved _ _ _ _ _
             (try_catch_resolved _ _ _ _ _ (bind_resolved _ _ _ _ _ Hrun))).
  cbn [fst snd setUser setLoading emit storage user loading trace].
  split; [done|]. split.
  { unfold authorization, sent, request_interceptor, bind.
    rewrite Hget, Htruthy. simpl. apply lookup_insert_eq. }
  split; [apply added_app; simpl; by rewrite <- app_assoc|].
  done.
Qed.

(** X11.  A restore that follows [logout] issues no request and leaves the
    session Anonymous. *)
Theorem logout_then_checkAuth (w : World Srv) :
  let w1 := (logout w).1 in
  let w' := (checkAuth serve w1).1 in
  (checkAuth serve w1).2 = Resolved tt ∧
  trace w' = trace w1 ∧ anonymous w' ∧ server w' = server w ∧ loading w' = false.
Proof.
  cbv zeta.
  assert (H : token (logout w).1 = None).
  { unfold logout, bind, token. simpl. apply lookup_delete_eq. }
  rewrite (checkAuth_idle _ (or_introl H)).
  cbn [fst snd settled setLoading trace server loading].
  split; [done|]. split; [done|]. split; [|done].
  split; [exact H | done].
Qed.

(** X12.  A signup in which all three calls succeed: the outcome carries the body
    of the signup response, while the cached identity is the body of the
    identity fetch; the token is stored and two success toasts are shown. *)
Theorem signup_success_outcome (userData : UserData) (w : World Srv)
        (r0 r1 r2 : Response) (tok : string) :
  let c0 := sent w (signup_config userData) in
  let w0 := after_transmit serve w c0 in
  let c1 := sent w0 (login_config (email userData) (password userData)) in
  let w2 := persisted tok (after_transmit serve w0 c1) in
  let c2 := sent w2 me_config in
  let w' := (signup serve userData w).1 in
  answer_to serve w c0 = Some r0 → validate_status (status r0) = true →
  answer_to serve w0 c1 = Some r1 → validate_status (status r1) = true →
  opt_prop (data r1) "access_token" = JStr tok →
  answer_to serve w2 c2 = Some r2 → validate_status (status r2) = true →
  (signup serve userData w).2 = Resolved (AuthSuccess (data r0)) ∧
  user w' = data r2 ∧ token w' = Some tok ∧
  added w w' =
    [EvRequest c0; EvRequest c1; EvSetItem "access_token" tok; EvRequest c2;
     EvSetUser (data r2); EvToastSuccess (JStr "Connexion réussie !");
     EvToastSuccess (JStr "Compte créé avec succès !")].
Proof.
  cbv zeta. intros E0 V0 E1 V1 Ht E2 V2.
  assert (Hp : prop (data r1) "access_token" = Some (JStr tok)).
  { unfold prop. destruct (data r1); try discriminate Ht. simpl in *. by rewrite Ht. }
  rewrite (signup_created serve _ _ _ E0 V0). cbv zeta.
  rewrite (login_credentials_accepted serve _ _ _ _ _ E1 V1 Hp). cbv zeta.
  change (js_to_string (JStr tok)) with tok. rewrite E2, V2.
  cbn [fst snd]. split; [done|]. split; [done|].
  split; [unfold token; simpl; apply lookup_insert_eq|].
  apply added_app. simpl. by rewrite <- !app_assoc.
Qed.

(** X13.  A 422 answer whose [detail] starts with a list whose first entry is
    [null]: reading [.msg] throws inside the [catch] block, so [signup]
    rejects with a TypeError and shows no toast of its own. *)
Theorem signup_rejects_on_null_error_entry (userData : UserData) (w : World Srv)
        (r : Response) (first : JValue) (others : list JValue) :
  let c := sent w (signup_config userData) in
  let w' := (signup serve userData w).1 in
  answer_to serve w c = Some r →
  status r = 422 →
  hd JUndefined (object_values (js_or (opt_prop (data r) "detail") (JObj [])))
    = JArr (first :: others) →
  nullish first = true →
  (signup serve userData w).2 = Rejected TypeError ∧
  added w w' = [EvRequest c] ∧ storage w' = storage w ∧ user w' = user w.
Proof.
  cbv zeta. set (c := sent w (signup_config userData)). intros E Hs Hd Hn.
  assert (R : resolves (answer_to serve w c) = false) by (by rewrite E; simpl; rewrite Hs).
  rewrite (signup_refused serve _ _ R). cbv zeta. fold c. rewrite E.
  rewrite (reaction_client_error _ r) by (simpl; done || lia).
  assert (Hm : signup_message (axios_error c (Some r)) = None).
  { unfold signup_message, axios_error. cbn [err_response]. rewrite Hs.
    cbn [Z.eqb Pos.eqb]. cbv zeta. rewrite Hd. unfold prop. by rewrite Hn. }
  rewrite Hm. cbn [fst snd]. split; [done|]. split; [|done].
  by apply added_app.
Qed.

(** X14.  A signup that receives no response: the failure carries the generic
    signup message and no status code (the branch for status 0 is not
    reached), after the pipeline's own connection toast. *)
Theorem signup_connectivity_failure (userData : UserData) (w : World Srv) :
  let c := sent w (signup_config userData) in
  let w' := (signup serve userData w).1 in
  answer_to serve w c = None →
  (signup serve userData w).2
    = Resolved (AuthFailure (JStr "Erreur lors de l'inscription") None) ∧
  added w w' = [EvRequest c;
                EvToastError (JStr "Problème de connexion au serveur.");
                EvToastError (JStr "Erreur lors de l'inscription")] ∧
  storage w' = storage w ∧ user w' = user w.
Proof.
  cbv zeta. set (c := sent w (signup_config userData)). intros E.
  assert (R : resolves (answer_to serve w c) = false) by (by rewrite E).
  rewrite (signup_refused serve _ _ R). cbv zeta. fold c. rewrite E.
  cbn [fst snd]. split; [done|]. split; [|done].
  apply added_app. simpl. by rewrite <- !app_assoc.
Qed.



(** X16.  [getGoogleAuthUrl] does not look at the status: it resolves with the
    JSON body of any answer.  [handleGoogleCallback] resolves only on a 2xx
    status.  Both send a request without an Authorization header, whatever
    the Credential Store holds, and neither touches the store. *)
Theorem google_calls_outcome (code : JValue) (w : World Srv) :
  let c := google_url_config in
  let c' := mkRequest POST "/auth/google/callback"
              {["Content-Type" := "application/json"]}
              (JsonBody (JObj [("code", code)])) in
  (getGoogleAuthUrl serve w).2 =
    match answer_to serve w c with
    | None => Rejected TypeError
    | Some resp => match data resp with
                   | JUndefined => Rejected SyntaxError
                   | v => Resolved v
                   end
    end ∧
  (∀ v, (handleGoogleCallback serve code w).2 = Resolved v →
        ∃ resp, answer_to serve w c' = Some resp ∧ response_ok resp = true ∧
                data resp = v) ∧
  added w (getGoogleAuthUrl serve w).1 = [EvRequest c] ∧
  added w (handleGoogleCallback serve code w).1 = [EvRequest c'] ∧
  authorization c = None ∧ authorization c' = None ∧
  storage (getGoogleAuthUrl serve w).1 = storage w ∧
  storage (handleGoogleCallback serve code w).1 = storage w.
Proof.
  cbv zeta.
  unfold getGoogleAuthUrl, handleGoogleCallback, google_url_config, bind, fetch,
    transmit, bind, answer_to, added. cbn [fst snd server].
  destruct (serve (server w) (mkRequest GET _ _ _)) as [s1 [resp1|]];
    destruct (serve (server w) (mkRequest POST _ _ _)) as [s2 [resp2|]]; cbn;
    unfold response_json.
  all: repeat split; try done; try apply drop_app_length.
  all: try (by destruct (data resp1); cbn; rewrite ?drop_app_length).
  all: try (destruct (response_ok resp2) eqn:Hok; cbn;
            destruct (data resp2) eqn:D; cbn; rewrite ?drop_app_length; try done;
            unfold prop; rewrite ?D; cbn; rewrite ?drop_app_length; done).
  all: try (intros v; destruct (response_ok resp2) eqn:Hok; cbn;
            destruct (data resp2) eqn:D; cbn; try discriminate;
            unfold prop; rewrite ?D; cbn; try discriminate;
            intros [= <-]; exists resp2; by rewrite D).
Qed.

(** A failed or resolved call on the instance adds, after the request,
    only events that are not requests. *)
Lemma api_request_added (config : Request) (w : World Srv) :
  ∃ rest, added w (api_request serve config w).1 = EvRequest (sent w config) :: rest ∧
          count is_request rest = 0%nat ∧
          count is_toast_success rest = 0%nat.
Proof.
  rewrite api_request_run. cbv zeta.
  assert (F : ∀ e, ∃ rest,
            added w (response_rejected (A := Response) e
                       (after_transmit serve w (sent w config))).1
            = EvRequest (sent w config) :: rest ∧
            count is_request rest = 0%nat ∧ count is_toast_success rest = 0%nat).
  { intros e. unfold response_rejected, bind.
    destruct (err_response e) as [r|]; simpl.
    - destruct (status r =? 401); simpl.
      + eexists. split; [apply added_app; simpl; by rewrite <- !app_assoc|done].
      + destruct (500 <=? status r); simpl.
        * eexists. split; [apply added_app; simpl; by rewrite <- !app_assoc|done].
        * exists []. split; [by apply added_app|done].
    - eexists. split; [apply added_app; simpl; by rewrite <- !app_assoc|done]. }
  destruct (answer_to serve w (sent w config)) as [r|]; [|apply F].
  destruct (validate_status (status r)); [|apply F].
  exists []. split; [by apply added_app|done].
Qed.

(** X17.  The reset form sends its request exactly when the two passwords are
    equal and at least 8 code units long, that is when the strength shown is
    not "weak".  Otherwise it shows one error toast, issues no request and
    leaves the page and the session as they were. *)
Theorem reset_password_guard (token : JValue) (password confirmPassword : string)
        (st : ResetPasswordPage.State) (w : World Srv) :
  let run := ResetPasswordPage.handleSubmit serve token password confirmPassword st w in
  let sendable := String.eqb password confirmPassword
                  && negb (ResetPasswordPage.js_length password <? 8)%nat in
  (if sendable then
     ∃ rest, added w run.1 = EvRequest (sent w (reset_config token password)) :: rest ∧
             count is_request rest = 0%nat
   else
     run.2 = Resolved st ∧ count is_request (added w run.1) = 0%nat ∧
     count is_toast_error (added w run.1) = 1%nat ∧
     storage run.1 = storage w ∧ href run.1 = href w) ∧
  (sendable = true →
   ResetPasswordPage.strength (ResetPasswordPage.getPasswordStrength password)
     ≠ "weak").
Proof.
  cbv zeta. split.
  - unfold ResetPasswordPage.handleSubmit.
    destruct (String.eqb password confirmPassword); cbn [negb andb].
    + destruct (ResetPasswordPage.js_length password <? 8)%nat; cbn [negb].
      * unfold bind, toast_error, ret. cbn [fst snd emit storage href].
        rewrite (added_app w _ [_]) by done. done.
      * unfold authAPI_resetPassword, api_post. fold (reset_config token password).
        destruct (api_request_added (reset_config token password) w)
          as (rest & Hadd & Hreq & _).
        destruct (api_request serve (reset_config token password) w) as [w1 [r|e]] eqn:Hrun.
        -- eexists. unfold bind at 1, try_catch, bind at 1. rewrite Hrun.
           cbn [bind toast_success ret fst snd].
           unfold added in *. cbn [fst emit trace] in *.
           rewrite drop_app_le.
           ++ rewrite Hadd. split; [reflexivity|]. by rewrite count_app, Hreq.
           ++ apply (f_equal length) in Hadd. rewrite length_drop in Hadd. simpl in Hadd. lia.
        -- eexists. unfold bind at 1, try_catch, bind at 1. rewrite Hrun.
           cbn [bind toast_error ret fst snd].
           unfold added in *. cbn [fst emit trace] in *.
           rewrite drop_app_le.
           ++ rewrite Hadd. split; [reflexivity|]. by rewrite count_app, Hreq.
           ++ apply (f_equal length) in Hadd. rewrite length_drop in Hadd. simpl in Hadd. lia.
    + unfold bind, toast_error, ret. cbn [fst snd emit storage href].
      rewrite (added_app w _ [_]) by done. done.
  - intros H. apply andb_prop in H as [_ H]. unfold ResetPasswordPage.getPasswordStrength.
    destruct (ResetPasswordPage.js_length password <? 8)%nat; [done|].
    by destruct (ResetPasswordPage.js_length password <? 12)%nat.
Qed.

(** X18.  The forgot-password form issues no request for an empty email; for any
    other email it sends one request carrying that email, and marks the
    mail as sent exactly when the call resolves. *)
Theorem forgot_password_guard (email : string) (st : ForgotPasswordPage.State)
        (w : World Srv) :
  let run := ForgotPasswordPage.handleSubmit serve email st w in
  let c := sent w (forgot_config email) in
  if String.eqb email "" then
    run.2 = Resolved st ∧
    added w run.1 = [EvToastError (JStr "Veuillez entrer votre adresse email")] ∧
    storage run.1 = storage w
  else
    run.2 = Resolved (ForgotPasswordPage.mkState false
                        (if resolves (answer_to serve w c) then true
                         else ForgotPasswordPage.sent st)) ∧
    ∃ rest, added w run.1 = EvRequest c :: rest ∧ count is_request rest = 0%nat.
Proof.
  cbv zeta. unfold ForgotPasswordPage.handleSubmit. cbn [truthy].
  destruct (String.eqb email ""); cbn [negb].
  - unfold bind, toast_error, ret. cbn [fst snd emit storage].
    rewrite (added_app w _ [_]) by done. done.
  - unfold authAPI_forgotPassword, api_post. fold (forgot_config email).
    destruct (api_request_added (forgot_config email) w) as (rest & Hadd & Hreq & _).
    pose proof (api_request_run serve (forgot_config email) w) as Hcase.
    cbv zeta in Hcase.
    destruct (api_request serve (forgot_config email) w) as [w1 [r|e]] eqn:Hrun.
    + assert (Hres : resolves (answer_to serve w (sent w (forgot_config email))) = true).
      { destruct (answer_to serve w (sent w (forgot_config email))) as [r'|]; simpl.
        - destruct (validate_status (status r')); [done|].
          by rewrite response_rejected_run in Hcase.
        - by rewrite response_rejected_run in Hcase. }
      rewrite Hres.
      rewrite (bind_resolved _ _ w
                 (emit (EvToastSuccess (JStr "Email de réinitialisation envoyé !")) w1)
                 (ForgotPasswordPage.mkState true true))
        by (apply try_catch_resolved; by rewrite (bind_resolved _ _ _ _ _ Hrun)).
      cbn [ret fst snd]. split; [done|].
      eexists. unfold added in *. cbn [fst emit trace] in *.
      rewrite drop_app_le.
      * rewrite Hadd. split; [reflexivity|]. by rewrite count_app, Hreq.
      * apply (f_equal length) in Hadd. rewrite length_drop in Hadd. simpl in Hadd. lia.
    + assert (Hres : resolves (answer_to serve w (sent w (forgot_config email))) = false).
      { destruct (answer_to serve w (sent w (forgot_config email))) as [r'|]; simpl; [|done].
        by destruct (validate_status (status r')). }
      rewrite Hres.
      rewrite (bind_resolved _ _ w
                 (emit (EvToastError (JStr "Erreur lors de l'envoi de l'email")) w1)
                 (ForgotPasswordPage.mkState true (ForgotPasswordPage.sent st)))
        by (by rewrite (try_catch_rejected _ _ _ _ _ (bind_rejected _ _ _ _ _ Hrun))).
      cbn [ret fst snd]. split; [done|].
      eexists. unfold added in *. cbn [fst emit trace] in *.
      rewrite drop_app_le.
      * rewrite Hadd. split; [reflexivity|]. by rewrite count_app, Hreq.
      * apply (f_equal length) in Hadd. rewrite length_drop in Hadd. simpl in Hadd. lia.
Qed.

Lemma signup_message_truthy (e : JsError) (m : JValue) :
  signup_message e = Some m → truthy m = true.
Proof.
  unfold signup_message. destruct (err_response e) as [r|]; [|by intros [= <-]].
  cbv zeta. destruct (status r =? 400).
  { destruct (strict_eq_str _ _); intros [= <-]; [done | by apply js_or_truthy]. }
  destruct (status r =? 422).
  { destruct (hd _ _) as [| | | | |[|first others]|]; try (by intros [= <-]).
    destruct (prop first "msg"); [|done]. intros [= <-]. by apply js_or_truthy. }
  destruct (status r =? 0); by intros [= <-].
Qed.

(** A failure returned by [signup] always carries a truthy message. *)
Lemma signup_failure_truthy (userData : UserData) (w : World Srv)
      (m : JValue) (sc : option Z) :
  (signup serve userData w).2 = Resolved (AuthFailure m sc) → truthy m = true.
Proof.
  set (c := sent w (signup_config userData)).
  destruct (resolves (answer_to serve w c)) eqn:R.
  - unfold resolves in R. destruct (answer_to serve w c) as [r|] eqn:E; [|done].
    rewrite (signup_created serve _ _ _ E R). cbv zeta.
    destruct (login_outcome_shape (email userData) (password userData)
                (after_transmit serve w c)) as (o & Ho & Hshape).
    destruct (login serve (email userData) (password userData) _) as [w2 c2].
    cbn [snd] in Ho. subst c2. destruct o as [u|m' sc']; cbn [snd]; [done|].
    intros [= <- <-]. by destruct Hshape.
  - rewrite (signup_refused serve _ _ R). cbv zeta.
    destruct (signup_message _) as [m'|] eqn:Hm; cbn [snd]; [|done].
    intros [= <- _]. by apply (signup_message_truthy _ _ Hm).
Qed.

(** X19.  The login page after a submission.  The world is the one [login]
    leaves.  On a success with a non-null identity the page navigates to
    /admin, /dashboard or /onboarding by [is_admin] and
    [onboarding_completed]; on a failure it shows [login]'s own message, so
    its fallback text is never used; the [catch] branch is reached only when
    a success carries a [null] identity. *)
Theorem login_page_outcome (trim : string → string) (email password : string)
        (st : LoginPage.State) (w : World Srv) :
  let run := LoginPage.onSubmit serve trim email password st w in
  let lg := login serve (trim email) (trim password) w in
  run.1 = lg.1 ∧
  ∃ st', run.2 = Resolved st' ∧ LoginPage.loading st' = false ∧
    match lg.2 with
    | Resolved (AuthSuccess u) =>
        if nullish u then
          LoginPage.loginError st' = JStr "Erreur de connexion au serveur" ∧
          LoginPage.navigated st' = LoginPage.navigated st
        else
          LoginPage.loginError st' = JStr "" ∧
          LoginPage.navigated st' =
            Some (if truthy (opt_prop u "is_admin") then "/admin"
                  else if truthy (opt_prop u "onboarding_completed") then "/dashboard"
                  else "/onboarding")
    | Resolved (AuthFailure m _) =>
        LoginPage.loginError st' = m ∧
        LoginPage.navigated st' = LoginPage.navigated st
    | Rejected _ => False
    end.
Proof.
  cbv zeta.
  destruct (login_outcome_shape (trim email) (trim password) w) as (o & Ho & Hshape).
  unfold LoginPage.onSubmit, bind, try_catch.
  destruct (login serve (trim email) (trim password) w) as [w1 c].
  cbn [snd] in Ho. subst c. cbn [fst snd].
  destruct o as [u|m sc].
  - unfold prop. destruct (nullish u); cbn [fst snd ret].
    + split; [done|]. by eexists.
    + destruct (truthy (opt_prop u "is_admin")); cbn [fst snd ret].
      * split; [done|]. by eexists.
      * destruct (truthy (opt_prop u "onboarding_completed")); cbn [fst snd ret];
          (split; [done|]; by eexists).
  - cbn [fst snd ret]. split; [done|]. eexists. split; [done|]. split; [done|].
    cbn [LoginPage.loginError LoginPage.navigated]. unfold js_or.
    destruct Hshape as (-> & _). done.
Qed.

(** X20.  The edge of the previous property: the credential call and the identity
    fetch both succeed but the identity body is [null].  The session is
    established (token stored, success toast shown), yet the page reports a
    server connection error and does not navigate. *)
Theorem login_page_null_identity (trim : string → string) (email password : string)
        (st : LoginPage.State) (w : World Srv) (r1 r2 : Response) (tok : string) :
  let c1 := sent w (login_config (trim email) (trim password)) in
  let w2 := persisted tok (after_transmit serve w c1) in
  let c2 := sent w2 me_config in
  let run := LoginPage.onSubmit serve trim email password st w in
  answer_to serve w c1 = Some r1 → validate_status (status r1) = true →
  opt_prop (data r1) "access_token" = JStr tok →
  answer_to serve w2 c2 = Some r2 → validate_status (status r2) = true →
  nullish (data r2) = true →
  run.2 = Resolved (LoginPage.mkState false (JStr "Erreur de connexion au serveur")
                      (LoginPage.navigated st)) ∧
  token run.1 = Some tok ∧ user run.1 = data r2 ∧
  last (trace run.1) = Some (EvToastSuccess (JStr "Connexion réussie !")).
Proof.
  cbv zeta. intros E1 V1 Ht E2 V2 Hn.
  assert (Hp : prop (data r1) "access_token" = Some (JStr tok)).
  { unfold prop. destruct (data r1); try discriminate Ht. simpl in *. by rewrite Ht. }
  pose proof (login_credentials_accepted serve _ _ _ _ _ E1 V1 Hp) as L.
  cbv zeta in L. change (js_to_string (JStr tok)) with tok in L. rewrite E2, V2 in L.
  unfold LoginPage.onSubmit, bind, try_catch. rewrite L. unfold prop. rewrite Hn.
  cbn [fst snd ret throw]. split; [done|].
  split; [unfold token; simpl; apply lookup_insert_eq|]. split; [done|].
  cbn [emit trace]. apply last_snoc.
Qed.

(** X21.  The signup page after a submission.  The world is the one [signup]
    leaves, and the request is built from the same four fields.  On a
    success the page navigates to /onboarding; on a failure it shows
    [signup]'s own message, so its fallback text is never used; when
    [signup] rejects it shows a connection error. *)
Theorem signup_page_outcome (data : UserData) (st : SignupPage.State) (w : World Srv) :
  let run := SignupPage.onSubmit serve data st w in
  let sg := signup serve
              (mkUserData (email data) (password data)
                 (js_or (firstName data) JNull) (js_or (lastName data) JNull)) w in
  signup_config (mkUserData (email data) (password data)
                   (js_or (firstName data) JNull) (js_or (lastName data) JNull))
    = signup_config data ∧
  run.1 = sg.1 ∧
  ∃ st', run.2 = Resolved st' ∧ SignupPage.loading st' = false ∧
    match sg.2 with
    | Resolved (AuthSuccess _) =>
        SignupPage.signupError st' = JStr "" ∧
        SignupPage.navigated st' = Some "/onboarding"
    | Resolved (AuthFailure m _) =>
        SignupPage.signupError st' = m ∧
        SignupPage.navigated st' = SignupPage.navigated st
    | Rejected _ =>
        SignupPage.signupError st'
          = JStr "Problème de connexion au serveur. Veuillez réessayer." ∧
        SignupPage.navigated st' = SignupPage.navigated st
    end.
Proof.
  cbv zeta. split.
  { assert (Hidem : ∀ a, js_or (js_or a JNull) JNull = js_or a JNull).
    { intros a. unfold js_or. destruct (truthy a) eqn:Ea; [by rewrite Ea | done]. }
    unfold signup_config. cbn [email password firstName lastName].
    by rewrite !Hidem. }
  set (sd := mkUserData _ _ _ _).
  pose proof (signup_failure_truthy sd w) as Htruthy.
  unfold SignupPage.onSubmit, bind, try_catch. fold sd.
  destruct (signup serve sd w) as [w1 [[u|m sc]|e]]; cbn [fst snd ret success].
  - split; [done|]. by eexists.
  - split; [done|]. eexists. split; [done|]. split; [done|].
    cbn [SignupPage.signupError SignupPage.navigated]. unfold js_or.
    by rewrite (Htruthy m sc eq_refl).
  - split; [done|]. by eexists.
Qed.

(** X22.  The form built from the cached user always has the same six fields and
    never holds [null] or [undefined] in any of them, whatever the user
    object is.  [handleCancel] rebuilds exactly that form: it discards the
    edits, leaves edit mode, and doing it twice changes nothing more. *)
Theorem profile_form_fields (user : JValue) (ed : Editor) :
  map fst (form_of_user user) =
    ["first_name"; "last_name"; "phone"; "email_notifications";
     "sms_notifications"; "notification_frequency"] ∧
  forallb (fun kv => negb (nullish kv.2)) (form_of_user user) = true ∧
  formData (handleCancel user ed) = form_of_user user ∧
  isEditing (cells (handleCancel user ed)) = false ∧
  saving (cells (handleCancel user ed)) = saving (cells ed) ∧
  handleCancel user (handleCancel user ed) = handleCancel user ed ∧
  formData (syncForm user ed) = (if truthy user then form_of_user user else formData ed).
Proof.
  assert (Hor : ∀ a s, nullish (js_or a (JStr s)) = false).
  { intros a s. unfold js_or. destruct (truthy a) eqn:E; [|done]. by destruct a. }
  assert (Hco : ∀ a b, nullish (js_coalesce a (JBool b)) = false).
  { intros a b. unfold js_coalesce. by destruct (nullish a) eqn:E. }
  split; [done|]. split.
  { unfold form_of_user. cbn [forallb snd]. by rewrite !Hor, !Hco. }
  split; [done|]. split; [done|]. split; [done|]. split; [done|].
  unfold syncForm. by destruct (truthy user).
Qed.

(** X23.  A profile update answered 401: the pipeline removes the token and sets
    the login location, the page shows its error toast and stays in the
    mode it was in, and the cached identity is left in place. *)
Theorem profile_save_unauthorized (formData : JValue) (l : Local) (w : World Srv)
        (r : Response) :
  let c := sent w (update_config formData) in
  let run := handleSave serve formData l w in
  answer_to serve w c = Some r →
  status r = 401 →
  run.2 = Resolved (mkLocal (isEditing l) false) ∧
  token run.1 = None ∧ href run.1 = "/login" ∧ user run.1 = user w ∧
  added w run.1 =
    [EvRequest c; EvRemoveItem "access_token"; EvNavigate "/login";
     EvToastError (JStr "Erreur lors de la mise à jour du profil")].
Proof.
  cbv zeta. set (c := sent w (update_config formData)). intros E Hs.
  assert (R : resolves (answer_to serve w c) = false) by (by rewrite E; simpl; rewrite Hs).
  pose proof (api_request_failed serve (update_config formData) w R) as Hrun.
  cbv zeta in Hrun. fold c in Hrun. rewrite E in Hrun.
  assert (Hun : is_unauthorized (axios_error c (Some r)) = true).
  { unfold is_unauthorized. simpl. by rewrite Hs. }
  rewrite (reaction_unauthorized_trace _ _ Hun) in Hrun.
  unfold handleSave, userAPI_updateProfile, api_put. fold (update_config formData).
  rewrite (bind_resolved _ _ w
             (emit (EvToastError (JStr "Erreur lors de la mise à jour du profil"))
                (reaction (axios_error c (Some r)) (after_transmit serve w c)))
             (mkLocal (isEditing l) true))
    by (rewrite (try_catch_rejected _ _ _ _ _ (bind_rejected _ _ _ _ _ Hrun));
        by rewrite (reaction_unauthorized_trace _ _ Hun)).
  rewrite (reaction_unauthorized_trace _ _ Hun).
  cbn [ret fst snd emit]. split; [done|].
  split; [apply lookup_delete_eq|]. split; [done|]. split; [done|].
  apply added_app. simpl. by rewrite <- !app_assoc.
Qed.

Lemma quiet_leaves (w w' : World Srv) (evs : list Event) :
  trace w' = trace w ++ evs → count is_set_user evs = 0%nat → user w' = user w →
  leaves_identity w w'.
Proof. intros Ht Hc Hu. split; [done|]. by rewrite (added_app w w' evs Ht). Qed.

(** A call on the instance never sets the identity. *)
Lemma api_request_quiet (config : Request) (w : World Srv) :
  ∃ evs, trace (api_request serve config w).1 = trace w ++ evs ∧
         count is_set_user evs = 0%nat ∧
         user (api_request serve config w).1 = user w.
Proof.
  rewrite api_request_run. cbv zeta.
  assert (F : ∀ e, ∃ evs,
            trace (response_rejected (A := Response) e
                     (after_transmit serve w (sent w config))).1 = trace w ++ evs ∧
            count is_set_user evs = 0%nat ∧
            user (response_rejected (A := Response) e
                    (after_transmit serve w (sent w config))).1 = user w).
  { intros e. rewrite response_rejected_run. cbn [fst].
    destruct (reaction_frame e (after_transmit serve w (sent w config))) as (Hu & _).
    destruct (reaction_keeps_identity e (after_transmit serve w (sent w config)))
      as (evs & Hevs & Hset).
    exists (EvRequest (sent w config) :: evs). rewrite Hevs, Hu. simpl.
    by rewrite <- app_assoc. }
  destruct (answer_to serve w (sent w config)) as [r|]; [|apply F].
  destruct (validate_status (status r)); [|apply F].
  by exists [EvRequest (sent w config)].
Qed.

(** C9.  [updateUser] replaces the cached identity by its argument and
    touches nothing else.  [handleSave] of the profile page changes the
    cached identity only by calling [updateUser] on the body of a resolved
    update call: then the cache is exactly that body, whatever the form
    data and the previous identity were; when the call does not resolve,
    no [setUser] happens and the cache is as before.  No other component
    sets the identity itself: the pipeline, the admin service, the landing
    page and the password pages leave the cell alone and never call
    [setUser]; the login and signup pages add nothing to what the
    controller's [login] and [signup] do. *)
Theorem profile_update_replaces_identity (formData : JValue) (l : Local)
        (w : World Srv) :
  let c := sent w (update_config formData) in
  let w' := (handleSave serve formData l w).1 in
  (∀ (u : JValue) (w0 : World Srv),
     user (updateUser u w0).1 = u ∧ storage (updateUser u w0).1 = storage w0 ∧
     href (updateUser u w0).1 = href w0 ∧
     trace (updateUser u w0).1 = trace w0 ++ [EvSetUser u]) ∧
  match answer_to serve w c with
  | Some r =>
      if validate_status (status r) then
        user w' = data r ∧
        w' = emit (EvToastSuccess (JStr "Profil mis à jour avec succès !"))
               (updateUser (data r) (after_transmit serve w c)).1 ∧
        (handleSave serve formData l w).2 = Resolved (mkLocal false false)
      else
        user w' = user w ∧
        count is_set_user (drop (length (trace w)) (trace w')) = 0%nat
  | None =>
      user w' = user w ∧
      count is_set_user (drop (length (trace w)) (trace w')) = 0%nat
  end ∧
  (∀ config, leaves_identity w (api_request serve config w).1) ∧
  (∀ endpoint options, leaves_identity w (makeRequest serve endpoint options w).1) ∧
  leaves_identity w (getGoogleAuthUrl serve w).1 ∧
  (∀ code, leaves_identity w (handleGoogleCallback serve code w).1) ∧
  leaves_identity w (LandingPage.healthEffect serve w).1 ∧
  (∀ token password confirmPassword st,
     leaves_identity w
       (ResetPasswordPage.handleSubmit serve token password confirmPassword st w).1) ∧
  (∀ email st,
     leaves_identity w (ForgotPasswordPage.handleSubmit serve email st w).1) ∧
  (∀ trim email password st,
     (LoginPage.onSubmit serve trim email password st w).1
       = (login serve (trim email) (trim password) w).1) ∧
  (∀ data st,
     (SignupPage.onSubmit serve data st w).1
       = (signup serve
            (mkUserData (email data) (password data)
               (js_or (firstName data) JNull) (js_or (lastName data) JNull)) w).1).
Proof.
  cbv zeta. split; [done|]. split; [apply handleSave_identity|].
  assert (Hapi : ∀ config, leaves_identity w (api_request serve config w).1).
  { intros config. destruct (api_request_quiet config w) as (evs & Ht & Hc & Hu).
    by apply (quiet_leaves _ _ evs). }
  split; [exact Hapi|]. split.
  { intros endpoint options.
    destruct (makeRequest_frame serve endpoint options w) as (Ht & _ & _ & Hu).
    by apply (quiet_leaves _ _ _ Ht). }
  assert (Hfetch : ∀ (k : Response → Async Srv JValue) (r : Request),
            (∀ resp w1, (k resp w1).1 = w1) →
            leaves_identity w (bind (fetch serve r) k w).1).
  { intros k r Hk. unfold bind, fetch, transmit, bind.
    destruct (serve (server w) r) as [s' [resp|]]; cbn -[leaves_identity].
    - rewrite Hk. by apply (quiet_leaves _ _ [EvRequest r]).
    - by apply (quiet_leaves _ _ [EvRequest r]). }
  split.
  { apply Hfetch. intros resp w1. unfold response_json. by destruct (data resp). }
  split.
  { intros code. apply Hfetch. intros resp w1. unfold response_json, bind.
    destruct (response_ok resp); cbn [negb].
    - by destruct (data resp).
    - destruct (data resp) eqn:D; cbn; try done; unfold prop; rewrite ?D; cbn; done. }
  split.
  { unfold LandingPage.healthEffect.
    rewrite (try_catch_resolved _ _ _ _ _
               (bind_resolved _ _ _ _ _ (checkBackendHealth_run w))).
    apply Hapi. }
  assert (Htoast : ∀ (w1 : World Srv) (e : Event),
            is_set_user e = false → leaves_identity w w1 →
            (length (trace w) ≤ length (trace w1))%nat →
            leaves_identity w (emit e w1)).
  { intros w1 e He [Hu Hc] Hlen. split; [done|]. unfold added in *.
    cbn [emit trace]. rewrite drop_app_le by done.
    rewrite count_app, Hc. simpl. by rewrite He. }
  assert (Hlen : ∀ config,
            (length (trace w) ≤ length (trace (api_request serve config w).1))%nat).
  { intros config. destruct (api_request_quiet config w) as (evs & Ht & _).
    rewrite Ht, length_app. lia. }
  assert (Hself : leaves_identity w w).
  { apply (quiet_leaves _ _ []); [by rewrite app_nil_r | done | done]. }
  split.
  { intros token password confirmPassword st.
    unfold ResetPasswordPage.handleSubmit.
    destruct (String.eqb password confirmPassword); cbn [negb];
      [|by apply Htoast].
    destruct (ResetPasswordPage.js_length password <? 8)%nat; [by apply Htoast|].
    unfold authAPI_resetPassword, api_post, bind, try_catch.
    pose proof (Hapi (reset_config token password)) as Hq.
    pose proof (Hlen (reset_config token password)) as Hl.
    unfold reset_config in Hq, Hl.
    destruct (api_request serve _ w) as [w1 [r|e]]; cbn [fst snd] in *;
      by apply Htoast. }
  split.
  { intros email st. unfold ForgotPasswordPage.handleSubmit.
    destruct (truthy (JStr email)); cbn [negb]; [|by apply Htoast].
    unfold authAPI_forgotPassword, api_post, bind, try_catch.
    pose proof (Hapi (forgot_config email)) as Hq.
    pose proof (Hlen (forgot_config email)) as Hl.
    unfold forgot_config in Hq, Hl.
    destruct (api_request serve _ w) as [w1 [r|e]]; cbn [fst snd] in *;
      by apply Htoast. }
  split.
  { intros trim email password st. unfold LoginPage.onSubmit, bind, try_catch.
    destruct (login serve (trim email) (trim password) w) as [w1 [[u|m sc]|e]];
      cbn [fst snd]; [|done|done].
    unfold prop. destruct (nullish u); cbn [fst snd ret throw]; [done|].
    destruct (truthy (opt_prop u "is_admin")); [done|].
    by destruct (truthy (opt_prop u "onboarding_completed")). }
  intros data st. unfold SignupPage.onSubmit, bind, try_catch.
  by destruct (signup serve _ w) as [w1 [[u|m sc]|e]].
Qed.

End MoreFacts.

(** ** The further properties at concrete worlds *)

Lemma login_identity_failure_keeps_token_witness :
  (login scripted "admin@example.com" "admin123" w_login_half).2
    = Resolved (AuthFailure (JStr "Erreur serveur, veuillez réessayer plus tard") None) ∧
  token (login scripted "admin@example.com" "admin123" w_login_half).1 = Some "abc" ∧
  user (login scripted "admin@example.com" "admin123" w_login_half).1 = JNull.
Proof.
  destruct (login_identity_failure_keeps_token scripted "admin@example.com" "admin123"
              w_login_half (mkResponse 200 token_body) "abc")
    as (Hout & Huser & Htok & _);
    [reflexivity | reflexivity | reflexivity | reflexivity |].
  split; [exact Hout|]. split; [exact Htok | exact Huser].
Defined.

Lemma login_missing_token_stores_undefined_witness :
  ∃ rest,
    trace (login scripted "admin@example.com" "admin123" w_login_no_token).1 =
      [EvRequest (sent w_login_no_token (login_config "admin@example.com" "admin123"));
       EvSetItem "access_token" "undefined";
       EvRequest (sent (boot (stored "undefined") [failed 401 (detail "Not authenticated")])
                    me_config)] ++ rest.
Proof.
  destruct (login_missing_token_stores_undefined scripted "admin@example.com" "admin123"
              w_login_no_token (mkResponse 200 (JObj [])))
    as (_ & rest & Htrace);
    [reflexivity | reflexivity | reflexivity | reflexivity |].
  exists rest. exact Htrace.
Defined.

Lemma login_null_body_fails_witness :
  (login scripted "admin@example.com" "admin123" w_login_null_body).2
    = Resolved (AuthFailure (JStr "Erreur de connexion") None) ∧
  storage (login scripted "admin@example.com" "admin123" w_login_null_body).1
    = storage w_login_null_body.
Proof.
  destruct (login_null_body_fails scripted "admin@example.com" "admin123"
              w_login_null_body (mkResponse 200 JNull))
    as (Hout & _ & Hst & _); [reflexivity | reflexivity | reflexivity |].
  split; [exact Hout | exact Hst].
Defined.

Lemma login_failure_toasts_witness :
  count is_toast_error
    (added w_outage (login scripted "admin@example.com" "admin123" w_outage).1) = 2%nat.
Proof.
  exact (login_failure_toasts scripted "admin@example.com" "admin123" w_outage eq_refl).
Defined.

Lemma checkAuth_without_token_witness :
  trace (checkAuth scripted w_login_refused).1 = trace w_login_refused ∧
  loading (checkAuth scripted w_login_refused).1 = false.
Proof.
  destruct (checkAuth_without_token scripted w_login_refused)
    as (_ & Htr & _ & _ & _ & Hload); [left; reflexivity|].
  split; [exact Htr | exact Hload].
Defined.

Lemma checkAuth_restores_identity_witness :
  user (checkAuth scripted w_returning).1 = admin_identity ∧
  token (checkAuth scripted w_returning).1 = Some "abc" ∧
  authorization (sent w_returning me_config) = Some "Bearer abc".
Proof.
  destruct (checkAuth_restores_identity scripted w_returning "abc"
              (mkResponse 200 admin_identity))
    as (_ & Hauth & _ & Huser & Htok & _);
    [reflexivity | discriminate | reflexivity | reflexivity |].
  split; [exact Huser|]. split; [exact Htok | exact Hauth].
Defined.

Lemma signup_success_outcome_witness :
  (signup scripted alice w_signup_ok).2 = Resolved (AuthSuccess created_profile) ∧
  user (signup scripted alice w_signup_ok).1 = admin_identity ∧
  token (signup scripted alice w_signup_ok).1 = Some "abc".
Proof.
  destruct (signup_success_outcome scripted alice w_signup_ok
              (mkResponse 200 created_profile) (mkResponse 200 token_body)
              (mkResponse 200 admin_identity) "abc")
    as (Hout & Huser & Htok & _);
    [reflexivity | reflexivity | reflexivity | reflexivity | reflexivity
     | reflexivity | reflexivity |].
  split; [exact Hout|]. split; [exact Huser | exact Htok].
Defined.

Lemma signup_rejects_on_null_error_entry_witness :
  (signup scripted alice w_signup_null_entry).2 = Rejected TypeError ∧
  count is_toast_error
    (added w_signup_null_entry (signup scripted alice w_signup_null_entry).1) = 0%nat.
Proof.
  destruct (signup_rejects_on_null_error_entry scripted alice w_signup_null_entry
              (mkResponse 422 (JObj [("detail", JObj [("email", JArr [JNull])])]))
              JNull [])
    as (Hout & Hadd & _);
    [reflexivity | reflexivity | reflexivity | reflexivity |].
  split; [exact Hout|]. rewrite Hadd. reflexivity.
Defined.

Lemma signup_connectivity_failure_witness :
  (signup scripted alice w_offline).2
    = Resolved (AuthFailure (JStr "Erreur lors de l'inscription") None) ∧
  count is_toast_error (added w_offline (signup scripted alice w_offline).1) = 2%nat.
Proof.
  destruct (signup_connectivity_failure scripted alice w_offline)
    as (Hout & Hadd & _); [reflexivity|].
  split; [exact Hout|]. rewrite Hadd. reflexivity.
Defined.


Lemma google_calls_outcome_witness :
  (getGoogleAuthUrl scripted w_expired).2 = Resolved (detail "Not authenticated") ∧
  ∃ resp, answer_to scripted w_admin_anonymous
            (mkRequest POST "/auth/google/callback"
               {["Content-Type" := "application/json"]}
               (JsonBody (JObj [("code", JStr "4/abc")]))) = Some resp ∧
          response_ok resp = true ∧ data resp = JObj [].
Proof.
  destruct (google_calls_outcome scripted (JStr "4/abc") w_expired) as (Hurl & _).
  destruct (google_calls_outcome scripted (JStr "4/abc") w_admin_anonymous)
    as (_ & Hcb & _).
  split; [exact Hurl|]. exact (Hcb (JObj []) eq_refl).
Defined.

Lemma reset_password_guard_witness :
  ResetPasswordPage.strength (ResetPasswordPage.getPasswordStrength "correct horse")
    ≠ "weak".
Proof.
  destruct (reset_password_guard scripted (JStr "reset-token") "correct horse"
              "correct horse" (ResetPasswordPage.mkState false false) w_login_refused)
    as (_ & Hstrength).
  exact (Hstrength eq_refl).
Defined.

Lemma login_page_null_identity_witness :
  (LoginPage.onSubmit scripted no_trim "admin@example.com" "admin123" idle_login
     w_login_null_identity).2
    = Resolved (LoginPage.mkState false (JStr "Erreur de connexion au serveur") None) ∧
  token (LoginPage.onSubmit scripted no_trim "admin@example.com" "admin123" idle_login
           w_login_null_identity).1 = Some "abc".
Proof.
  destruct (login_page_null_identity scripted no_trim "admin@example.com" "admin123"
              idle_login w_login_null_identity
              (mkResponse 200 token_body) (mkResponse 200 JNull) "abc")
    as (Hout & Htok & _);
    [reflexivity | reflexivity | reflexivity | reflexivity | reflexivity | reflexivity |].
  split; [exact Hout | exact Htok].
Defined.

Lemma profile_save_unauthorized_witness :
  token (handleSave scripted profile_patch (mkLocal true false) w_expired).1 = None ∧
  user (handleSave scripted profile_patch (mkLocal true false) w_expired).1
    = admin_identity ∧
  (handleSave scripted profile_patch (mkLocal true false) w_expired).2
    = Resolved (mkLocal true false).
Proof.
  destruct (profile_save_unauthorized scripted profile_patch (mkLocal true false) w_expired
              (mkResponse 401 (detail "Not authenticated")))
    as (Hout & Htok & _ & Huser & _); [reflexivity | reflexivity |].
  split; [exact Htok|]. split; [exact Huser | exact Hout].
Defined.

